(** * SDL filesystem operations, Windows backend

    A shallow embedding of [src/filesystem/windows/SDL_sysfsops.c]:
    [SDL_SYS_FSenumerate], [SDL_SYS_FSremove], [SDL_SYS_FSrename],
    [SDL_SYS_FSmkdir], [FileTimeToSDLTime] and [SDL_SYS_FSstat].

    C integers are [Z] with the wrap-around of their width written out.
    The Win32 calls and the SDL helpers the file consumes are the fields of
    a record [Win32]; every function of the file is a computation in a
    state monad whose state holds the callback's user data, the buffers and
    handles currently held, and the trace of calls issued so far. *)

From Stdlib Require Import ZArith List String Ascii Bool Lia.
Import ListNotations.
Local Open Scope Z_scope.

(** ** Machine integers *)

Module Int.

Definition to_Uint64 (z : Z) : Z := z mod 2 ^ 64.

(** The cast [(Sint64) u] of an unsigned 64-bit value. *)
Definition to_Sint64 (z : Z) : Z :=
  let u := z mod 2 ^ 64 in
  if u <? 2 ^ 63 then u else u - 2 ^ 64.

Definition is_DWORD (z : Z) : Prop := 0 <= z < 2 ^ 32.

Definition is_Uint64 (z : Z) : Prop := 0 <= z < 2 ^ 64.

Definition is_Sint64 (z : Z) : Prop := - 2 ^ 63 <= z < 2 ^ 63.

End Int.

(** ** Time converter *)

Module Time.
Import Int.

Record FILETIME : Type := mkFILETIME {
  dwLowDateTime : Z;
  dwHighDateTime : Z
}.

(** The [ULARGE_INTEGER] union: [LowPart] and [HighPart] overlay the
    little-endian halves of [QuadPart]. *)
Definition QuadPart (LowPart HighPart : Z) : Z :=
  Z.lor (Z.shiftl HighPart 32) LowPart.

(** [SDL_NS_PER_SECOND] is [1000000000LL] in SDL_timer.h. *)
Definition SDL_NS_PER_SECOND : Z := 1000000000.

Definition delta_1601_epoch_100ns : Z :=
  to_Uint64 (11644473600 * 10000000).

Definition FileTimeToSDLTime (ft : FILETIME) : Z :=
  let large := QuadPart (dwLowDateTime ft) (dwHighDateTime ft) in
  if large =? 0 then 0
  else to_Sint64
         (to_Uint64 (to_Uint64 large - delta_1601_epoch_100ns)
          / to_Uint64 (SDL_NS_PER_SECOND / 100)).

(** The tick count a [FILETIME] denotes. *)
Definition ticks (ft : FILETIME) : Z :=
  dwLowDateTime ft + 2 ^ 32 * dwHighDateTime ft.

Definition wf_FILETIME (ft : FILETIME) : Prop :=
  is_DWORD (dwLowDateTime ft) /\ is_DWORD (dwHighDateTime ft).

End Time.

(** ** Native strings *)

Module WStr.

(** A [WCHAR] array is the list of its 16-bit units. *)
Definition wchars : Type := list Z.

(** [fn[i]]; past the stored units the array holds the terminator. *)
Definition at_ (fn : wchars) (i : nat) : Z := nth i fn 0.

(** The NUL-terminated string a [WCHAR *] denotes: the units before the
    first zero. *)
Fixpoint wcs (fn : wchars) : wchars :=
  match fn with
  | [] => []
  | c :: rest => if c =? 0 then [] else c :: wcs rest
  end.

Definition dot : Z := 46.

End WStr.

(** ** Path information *)

Inductive SDL_PathType : Type :=
| SDL_PATHTYPE_NONE
| SDL_PATHTYPE_FILE
| SDL_PATHTYPE_DIRECTORY
| SDL_PATHTYPE_OTHER.

Record SDL_PathInfo : Type := mkPathInfo {
  type : SDL_PathType;
  size : Z;
  create_time : Z;
  modify_time : Z;
  access_time : Z
}.

Record WIN32_FILE_ATTRIBUTE_DATA : Type := mkAttrData {
  dwFileAttributes : Z;
  ftCreationTime : Time.FILETIME;
  ftLastAccessTime : Time.FILETIME;
  ftLastWriteTime : Time.FILETIME;
  nFileSizeHigh : Z;
  nFileSizeLow : Z
}.

(** Constants of the Windows headers. *)
Definition FILE_ATTRIBUTE_DIRECTORY : Z := 0x10.
Definition FILE_ATTRIBUTE_DEVICE : Z := 0x40.
Definition FILE_ATTRIBUTE_OFFLINE : Z := 0x1000.
Definition ERROR_FILE_NOT_FOUND : Z := 2.
Definition ERROR_PATH_NOT_FOUND : Z := 3.
Definition MOVEFILE_REPLACE_EXISTING : Z := 1.

(** ** The host: Win32 calls and SDL helpers

    [None] stands for a [NULL] result, [false] for a [FALSE] one. *)

Record Win32 : Type := mkWin32 {
  (** does [SDL_malloc (n)] return a buffer *)
  malloc_ok : Z -> bool;
  (** [WIN_UTF8ToString] *)
  utf8_to_wide : string -> option WStr.wchars;
  (** [WIN_StringToUTF8] *)
  wide_to_utf8 : WStr.wchars -> option string;
  (** [GetLogicalDrives] *)
  logical_drives : Z;
  (** [FindFirstFileExW]: [None] for [INVALID_HANDLE_VALUE], else the first
      entry's [cFileName] and those [FindNextFileW] will hand out *)
  find_first : WStr.wchars -> option (WStr.wchars * list WStr.wchars);
  (** [GetFileAttributesExW]: the data, or the code [GetLastError] gives *)
  file_attributes : WStr.wchars -> WIN32_FILE_ATTRIBUTE_DATA + Z;
  remove_directory : WStr.wchars -> bool;
  delete_file : WStr.wchars -> bool;
  move_file_ex : WStr.wchars -> WStr.wchars -> Z -> bool;
  create_directory : WStr.wchars -> bool
}.

(** ** Resources, events and the monad *)

Inductive resource : Type :=
| Buffer (id : nat)
| SearchHandle (id : nat).

Definition resource_eqb (a b : resource) : bool :=
  match a, b with
  | Buffer i, Buffer j => Nat.eqb i j
  | SearchHandle i, SearchHandle j => Nat.eqb i j
  | _, _ => false
  end.

Inductive event : Type :=
| EvGetLogicalDrives
| EvFindFirst (pattern : WStr.wchars) (found : option WStr.wchars)
| EvFindNext (found : option WStr.wchars)
| EvFindClose
| EvCallback (dirname fname : string) (result : Z)
| EvGetFileAttributes (path : WStr.wchars)
| EvRemoveDirectory (path : WStr.wchars)
| EvDeleteFile (path : WStr.wchars)
| EvMoveFileEx (from to : WStr.wchars) (flags : Z)
| EvCreateDirectory (path : WStr.wchars)
| EvSetError (msg : string).

Section Driver.

Variable U : Type.

Record state : Type := mkState {
  userdata : U;
  next_id : nat;
  live : list resource;
  trace : list event
}.

Definition M (A : Type) : Type := state -> A * state.

Definition ret {A} (a : A) : M A := fun s => (a, s).

Definition bind {A B} (m : M A) (k : A -> M B) : M B :=
  fun s => let (a, s') := m s in k a s'.

Notation "x <- c1 ;; c2" := (bind c1 (fun x => c2))
  (at level 61, c1 at next level, right associativity).
Notation "c1 ;; c2" := (bind c1 (fun _ => c2))
  (at level 61, right associativity).

Definition emit (e : event) : M unit :=
  fun s => (tt, mkState (userdata s) (next_id s) (live s) (trace s ++ [e])).

Definition acquire (mk : nat -> resource) : M nat :=
  fun s => (next_id s,
            mkState (userdata s) (S (next_id s))
                    (live s ++ [mk (next_id s)]) (trace s)).

Definition release (r : resource) : M unit :=
  fun s => (tt,
            mkState (userdata s) (next_id s)
                    (filter (fun x => negb (resource_eqb x r)) (live s))
                    (trace s)).

(** *** Helpers and native calls *)

Variable os : Win32.

(** The caller's [SDL_EnumerateDirectoryCallback], acting on what
    [userdata] points to. *)
Variable cb : U -> string -> string -> Z * U.

Definition call_cb (dirname fname : string) : M Z :=
  fun s =>
    let (r, u) := cb (userdata s) dirname fname in
    (r, mkState u (next_id s) (live s)
                (trace s ++ [EvCallback dirname fname r])).

Definition SDL_strlen (s : string) : Z := Z.of_nat (String.length s).

Definition SDL_malloc (n : Z) : M (option nat) :=
  if malloc_ok os n then id <- acquire Buffer ;; ret (Some id)
  else ret None.

Definition SDL_free (id : nat) : M unit := release (Buffer id).

(** [SDL_snprintf (buf, maxlen, ...)] stores at most [maxlen - 1]
    characters of the formatted text. *)
Definition SDL_snprintf (maxlen : Z) (text : string) : string :=
  String.substring 0 (Z.to_nat (maxlen - 1)) text.

Definition WIN_UTF8ToString (s : string) : M (option (nat * WStr.wchars)) :=
  match utf8_to_wide os s with
  | Some w => id <- acquire Buffer ;; ret (Some (id, w))
  | None => ret None
  end.

Definition WIN_StringToUTF8 (fn : WStr.wchars) : M (option (nat * string)) :=
  match wide_to_utf8 os (WStr.wcs fn) with
  | Some s => id <- acquire Buffer ;; ret (Some (id, s))
  | None => ret None
  end.

(** Modelled from the spec: [WIN_SetError] is defined in
    core/windows/SDL_windows.c, outside this file.  The error reporter
    records the message and returns the layer's failure code [-1]. *)
Definition WIN_SetError (msg : string) : M Z :=
  emit (EvSetError msg) ;; ret (-1).

Definition GetLogicalDrives : M Z :=
  emit EvGetLogicalDrives ;; ret (logical_drives os).

(** An open search: its handle and the entries not yet handed out. *)
Record HANDLE : Type := mkHANDLE {
  handle_id : nat;
  pending : list WStr.wchars
}.

Definition FindFirstFileExW (pattern : WStr.wchars)
  : M (option (HANDLE * WStr.wchars)) :=
  match find_first os pattern with
  | None => emit (EvFindFirst pattern None) ;; ret None
  | Some (entw, rest) =>
      emit (EvFindFirst pattern (Some entw)) ;;
      id <- acquire SearchHandle ;;
      ret (Some (mkHANDLE id rest, entw))
  end.

(** [FindNextFileW (dir, &entw)], in continuation form: [k_more] receives
    the entry written to [entw] and the entries still pending. *)
Definition FindNextFileW {A} (rest : list WStr.wchars)
    (k_done : M A) (k_more : WStr.wchars -> list WStr.wchars -> M A) : M A :=
  match rest with
  | [] => emit (EvFindNext None) ;; k_done
  | entw :: rest' => emit (EvFindNext (Some entw)) ;; k_more entw rest'
  end.

Definition FindClose (dir : HANDLE) : M unit :=
  emit EvFindClose ;; release (SearchHandle (handle_id dir)).

Definition GetFileAttributesExW (path : WStr.wchars)
  : M (WIN32_FILE_ATTRIBUTE_DATA + Z) :=
  emit (EvGetFileAttributes path) ;; ret (file_attributes os path).

Definition RemoveDirectoryW (path : WStr.wchars) : M bool :=
  emit (EvRemoveDirectory path) ;; ret (remove_directory os path).

Definition DeleteFileW (path : WStr.wchars) : M bool :=
  emit (EvDeleteFile path) ;; ret (delete_file os path).

Definition MoveFileExW (from to : WStr.wchars) (flags : Z) : M bool :=
  emit (EvMoveFileEx from to flags) ;; ret (move_file_ex os from to flags).

Definition CreateDirectoryW (path : WStr.wchars) : M bool :=
  emit (EvCreateDirectory path) ;; ret (create_directory os path).

(** *** SDL_SYS_FSenumerate *)

Definition char_A : Z := 65.
Definition char_Z : Z := 90.

(** [char name[3] = { (char) i, ':', '\0' }] *)
Definition drive_name (i : Z) : string :=
  String (ascii_of_nat (Z.to_nat i)) (String ":" EmptyString).

(** [drives & (1 << (i - 'A'))] *)
Definition drive_present (drives i : Z) : bool :=
  negb (Z.land drives (Z.shiftl 1 (i - char_A)) =? 0).

(** The [for] loop over drive letters, from its condition onwards; [fuel]
    bounds the iterations and 26 are enough ([drive_loop_fuel]). *)
Fixpoint drive_loop (fuel : nat) (dirname : string) (drives i retval : Z)
  : M Z :=
  match fuel with
  | O => ret retval
  | S fuel' =>
      if (retval =? 1) && (i <=? char_Z) then
        retval' <- (if drive_present drives i
                    then call_cb dirname (drive_name i)
                    else ret retval) ;;
        drive_loop fuel' dirname drives (i + 1) retval'
      else ret retval
  end.

(** [fn] names "." or "..". *)
Definition is_dot_or_dotdot (fn : WStr.wchars) : bool :=
  (WStr.at_ fn 0 =? WStr.dot)
  && ((WStr.at_ fn 1 =? 0)
      || ((WStr.at_ fn 1 =? WStr.dot) && (WStr.at_ fn 2 =? 0))).

(** One pass through the body of the [do] loop. *)
Definition enum_body (dirname : string) (entw : WStr.wchars) (retval : Z)
  : M Z :=
  let fn := entw in
  if is_dot_or_dotdot fn then ret retval
  else
    utf8fn <- WIN_StringToUTF8 fn ;;
    match utf8fn with
    | None => ret (-1)
    | Some (id, name) =>
        retval' <- call_cb dirname name ;;
        SDL_free id ;;
        ret retval'
    end.

(** The [do ... while] loop; [rest] are the entries the search has yet
    to hand out. *)
Fixpoint enum_loop (dirname : string) (entw : WStr.wchars)
    (rest : list WStr.wchars) (retval : Z) : M Z :=
  retval' <- enum_body dirname entw retval ;;
  if retval' =? 1 then
    FindNextFileW rest
      (ret retval')
      (fun entw' rest' => enum_loop dirname entw' rest' retval')
  else ret retval'.

Definition SDL_SYS_FSenumerate (fullpath dirname : string) : M Z :=
  let retval := 1 in
  match fullpath with
  | EmptyString =>
      drives <- GetLogicalDrives ;;
      drive_loop 26 dirname drives char_A retval
  | String _ _ =>
      let patternlen := SDL_strlen fullpath + 3 in
      pattern <- SDL_malloc patternlen ;;
      match pattern with
      | None => ret (-1)
      | Some pattern_id =>
          let text := SDL_snprintf patternlen (fullpath ++ "\*") in
          wpattern <- WIN_UTF8ToString text ;;
          SDL_free pattern_id ;;
          match wpattern with
          | None => ret (-1)
          | Some (wpattern_id, wpat) =>
              dir <- FindFirstFileExW wpat ;;
              SDL_free wpattern_id ;;
              match dir with
              | None => WIN_SetError "Failed to enumerate directory"
              | Some (dir, entw) =>
                  retval' <- enum_loop dirname entw (pending dir) retval ;;
                  FindClose dir ;;
                  ret retval'
              end
          end
      end
  end.

(** *** SDL_SYS_FSremove *)

Definition SDL_SYS_FSremove (fullpath : string) : M Z :=
  wpath <- WIN_UTF8ToString fullpath ;;
  match wpath with
  | None => ret (-1)
  | Some (wpath_id, wpath) =>
      got <- GetFileAttributesExW wpath ;;
      match got with
      | inr last_error =>
          if last_error =? ERROR_FILE_NOT_FOUND then ret 0
          else WIN_SetError "Couldn't get path's attributes"
      | inl info =>
          let isdir := Z.land (dwFileAttributes info) FILE_ATTRIBUTE_DIRECTORY in
          rc <- (if isdir =? 0 then DeleteFileW wpath
                 else RemoveDirectoryW wpath) ;;
          SDL_free wpath_id ;;
          if rc then ret 0 else WIN_SetError "Couldn't remove path"
      end
  end.

(** *** SDL_SYS_FSrename *)

Definition SDL_SYS_FSrename (oldfullpath newfullpath : string) : M Z :=
  woldpath <- WIN_UTF8ToString oldfullpath ;;
  match woldpath with
  | None => ret (-1)
  | Some (woldpath_id, woldpath) =>
      wnewpath <- WIN_UTF8ToString newfullpath ;;
      match wnewpath with
      | None => SDL_free woldpath_id ;; ret (-1)
      | Some (wnewpath_id, wnewpath) =>
          rc <- MoveFileExW woldpath wnewpath MOVEFILE_REPLACE_EXISTING ;;
          SDL_free wnewpath_id ;;
          SDL_free woldpath_id ;;
          if rc then ret 0 else WIN_SetError "Couldn't rename path"
      end
  end.

(** *** SDL_SYS_FSmkdir *)

Definition SDL_SYS_FSmkdir (fullpath : string) : M Z :=
  wpath <- WIN_UTF8ToString fullpath ;;
  match wpath with
  | None => ret (-1)
  | Some (wpath_id, wpath) =>
      rc <- CreateDirectoryW wpath ;;
      SDL_free wpath_id ;;
      if rc then ret 0 else WIN_SetError "Couldn't create directory"
  end.

(** *** SDL_SYS_FSstat *)

(** [(((Uint64) nFileSizeHigh) << 32) | nFileSizeLow] *)
Definition file_size (winstat : WIN32_FILE_ATTRIBUTE_DATA) : Z :=
  Z.lor (Int.to_Uint64 (Z.shiftl (Int.to_Uint64 (nFileSizeHigh winstat)) 32))
        (nFileSizeLow winstat).

(** The stores into [*info] once the attributes are known. *)
Definition fill_info (winstat : WIN32_FILE_ATTRIBUTE_DATA) : SDL_PathInfo :=
  let '(ty, sz) :=
    if negb (Z.land (dwFileAttributes winstat) FILE_ATTRIBUTE_DIRECTORY =? 0)
    then (SDL_PATHTYPE_DIRECTORY, 0)
    else if negb (Z.land (dwFileAttributes winstat)
                         (Z.lor FILE_ATTRIBUTE_OFFLINE FILE_ATTRIBUTE_DEVICE)
                  =? 0)
    then (SDL_PATHTYPE_OTHER, file_size winstat)
    else (SDL_PATHTYPE_FILE, file_size winstat) in
  mkPathInfo ty sz
    (Time.FileTimeToSDLTime (ftCreationTime winstat))
    (Time.FileTimeToSDLTime (ftLastWriteTime winstat))
    (Time.FileTimeToSDLTime (ftLastAccessTime winstat)).

(** [info] is the caller's record; the result pairs the return value with
    the record as the call leaves it. *)
Definition SDL_SYS_FSstat (fullpath : string) (info : SDL_PathInfo)
  : M (Z * SDL_PathInfo) :=
  wpath <- WIN_UTF8ToString fullpath ;;
  match wpath with
  | None => ret (-1, info)
  | Some (wpath_id, wpath) =>
      rc <- GetFileAttributesExW wpath ;;
      SDL_free wpath_id ;;
      match rc with
      | inr _ => r <- WIN_SetError "Can't stat" ;; ret (r, info)
      | inl winstat => ret (1, fill_info winstat)
      end
  end.

Definition init (u : U) : state := mkState u 0 [] [].

(** *** The iteration protocol, as the specification words it

    Entries are handed to the callback one by one for as long as it
    answers 1; its first other answer ends the enumeration and is the
    result. *)
Fixpoint deliver_all (dirname : string) (names : list string) : M Z :=
  match names with
  | [] => ret 1
  | name :: names' =>
      r <- call_cb dirname name ;;
      if r =? 1 then deliver_all dirname names' else ret r
  end.

End Driver.

Arguments init {U} u.
Arguments userdata {U} s.
Arguments next_id {U} s.
Arguments live {U} s.
Arguments trace {U} s.
Arguments ret {U A} a s.
Arguments bind {U A B} m k s.

(** ** Observations on states and traces *)

Definition resource_id (r : resource) : nat :=
  match r with
  | Buffer id => id
  | SearchHandle id => id
  end.

(** Identifiers are handed out in increasing order: whatever is held was
    acquired earlier. *)
Definition well_formed {U} (s : state U) : Prop :=
  Forall (fun r => (resource_id r < next_id s)%nat) (live s).

(** The answer of a callback invocation that ends the enumeration. *)
Definition is_stop (e : event) : option Z :=
  match e with
  | EvCallback _ _ v => if v =? 1 then None else Some v
  | _ => None
  end.

(** No callback invocation answered anything but 1. *)
Definition no_stop (tr : list event) : Prop :=
  Forall (fun e => is_stop e = None) tr.

(** Neither a callback invocation nor a next-entry call. *)
Definition is_quiet (e : event) : bool :=
  match e with
  | EvCallback _ _ _ => false
  | EvFindNext _ => false
  | _ => true
  end.

(** The callback invocations of a trace: directory name, entry name and
    answer. *)
Fixpoint calls (tr : list event) : list (string * string * Z) :=
  match tr with
  | [] => []
  | EvCallback d n v :: tr' => (d, n, v) :: calls tr'
  | _ :: tr' => calls tr'
  end.

(** What the callback was handed. *)
Definition delivered (tr : list event) : list (string * string) :=
  map fst (calls tr).

(** The entries the native search handed out. *)
Fixpoint found (tr : list event) : list WStr.wchars :=
  match tr with
  | [] => []
  | EvFindFirst _ (Some fn) :: tr' => fn :: found tr'
  | EvFindNext (Some fn) :: tr' => fn :: found tr'
  | _ :: tr' => found tr'
  end.

(** Was a native search opened, or tried. *)
Definition is_search (e : event) : bool :=
  match e with
  | EvFindFirst _ _ => true
  | EvFindNext _ => true
  | EvFindClose => true
  | _ => false
  end.

Fixpoint wchars_eqb (a b : WStr.wchars) : bool :=
  match a, b with
  | [], [] => true
  | x :: a', y :: b' => (x =? y) && wchars_eqb a' b'
  | _, _ => false
  end.

(** The native name is exactly "." or exactly "..". *)
Definition names_dot (fn : WStr.wchars) : bool :=
  wchars_eqb (WStr.wcs fn) [WStr.dot]
  || wchars_eqb (WStr.wcs fn) [WStr.dot; WStr.dot].

(** What one found entry contributes to the deliveries. *)
Definition deliverable (os : Win32) (dirname : string) (fn : WStr.wchars)
  : list (string * string) :=
  if names_dot fn then []
  else match wide_to_utf8 os (WStr.wcs fn) with
       | Some name => [(dirname, name)]
       | None => []
       end.

(** [n] consecutive integers from [i] on. *)
Fixpoint upto (i : Z) (n : nat) : list Z :=
  match n with
  | O => []
  | S n' => i :: upto (i + 1) n'
  end.

(** The drives of [candidates] whose bit is set, by name. *)
Definition present_names (drives : Z) (candidates : list Z) : list string :=
  map drive_name (filter (fun i => Z.testbit drives (i - char_A)) candidates).

(** A state with one more event on its trace. *)
Definition with_event {U} (s : state U) (e : event) : state U :=
  mkState U (userdata s) (next_id s) (live s) (trace s ++ [e]).

(** The event of one callback invocation in directory [dirname]. *)
Definition call_event (dirname : string) (c : string * Z) : event :=
  EvCallback dirname (fst c) (snd c).

(** The letters 'A' to 'Z', ascending. *)
Definition letters : list Z := map Z.of_nat (seq 65 26).

(** The names "X:" of the drives whose bit is set, ascending. *)
Definition drive_names (drives : Z) : list string :=
  present_names drives letters.

(** Nothing fails on the way to the entries of [fullpath] or on their
    names: the pattern buffer is allocated, the pattern converts, the
    search opens, and every entry other than "." and ".." converts. *)
Definition no_failure (os : Win32) (fullpath : string) : Prop :=
  match fullpath with
  | EmptyString => True
  | String _ _ =>
      malloc_ok os (SDL_strlen fullpath + 3) = true /\
      exists wpat entw rest,
        utf8_to_wide os (fullpath ++ "\*") = Some wpat /\
        find_first os wpat = Some (entw, rest) /\
        Forall (fun fn => names_dot fn = false ->
                          wide_to_utf8 os (WStr.wcs fn) <> None)
               (entw :: rest)
  end.

(** What the three attribute cases of [SDL_SYS_FSstat] store. *)
Definition classified (winstat : WIN32_FILE_ATTRIBUTE_DATA)
    (info : SDL_PathInfo) : Prop :=
  let attrs := dwFileAttributes winstat in
  let words := nFileSizeLow winstat + 2 ^ 32 * nFileSizeHigh winstat in
  (Z.testbit attrs 4 = true ->
   type info = SDL_PATHTYPE_DIRECTORY /\ size info = 0) /\
  (Z.testbit attrs 4 = false ->
   Z.testbit attrs 12 = true \/ Z.testbit attrs 6 = true ->
   type info = SDL_PATHTYPE_OTHER /\ size info = words) /\
  (Z.testbit attrs 4 = false ->
   Z.testbit attrs 12 = false -> Z.testbit attrs 6 = false ->
   type info = SDL_PATHTYPE_FILE /\ size info = words).


(** ** Sample hosts and callbacks *)

Module Samples.

Definition wide (s : string) : WStr.wchars :=
  map (fun c => Z.of_nat (nat_of_ascii c)) (list_ascii_of_string s).

Definition narrow (w : WStr.wchars) : string :=
  string_of_list_ascii (map (fun z => ascii_of_nat (Z.to_nat z)) w).

Definition epoch_1970 : Time.FILETIME := Time.mkFILETIME 3577643008 27111902.

Definition dir_data : WIN32_FILE_ATTRIBUTE_DATA :=
  mkAttrData FILE_ATTRIBUTE_DIRECTORY epoch_1970 epoch_1970 epoch_1970 0 0.

Definition file_data : WIN32_FILE_ATTRIBUTE_DATA :=
  mkAttrData 0x20 epoch_1970 (Time.mkFILETIME 0 0) epoch_1970 0 1234.

(** Drives A: and C:; a directory C:\dir holding a, b, c, d and e, listed
    after "." and ".."; a volume root C:\five listing the same five
    entries only. *)
Definition sample_os : Win32 := {|
  malloc_ok := fun _ => true;
  utf8_to_wide := fun s => Some (wide s);
  wide_to_utf8 := fun w => Some (narrow w);
  logical_drives := 5;
  find_first := fun pattern =>
    if wchars_eqb pattern (wide "C:\dir\*")
    then Some (wide ".", [wide ".."; wide "a"; wide "b"; wide "c";
                          wide "d"; wide "e"])
    else if wchars_eqb pattern (wide "C:\five\*")
    then Some (wide "a", [wide "b"; wide "c"; wide "d"; wide "e"])
    else None;
  file_attributes := fun path =>
    if wchars_eqb path (wide "C:\dir") then inl dir_data
    else if wchars_eqb path (wide "C:\dir\a") then inl file_data
    else if wchars_eqb path (wide "C:\dir\gone") then inr ERROR_FILE_NOT_FOUND
    else inr ERROR_PATH_NOT_FOUND;
  remove_directory := fun _ => false;
  delete_file := fun path => wchars_eqb path (wide "C:\dir\a");
  move_file_ex := fun from _ _ => wchars_eqb from (wide "C:\dir\a");
  create_directory := fun _ => true
|}.

(** Counts its invocations and always asks for more. *)
Definition count_cb (u : nat) (_ _ : string) : Z * nat := (1, S u).

(** Stops, with 0, on its third invocation. *)
Definition stop_at_third (u : nat) (_ _ : string) : Z * nat :=
  (if Nat.eqb u 2 then 0 else 1, S u).

(** Stops, with 0, at once. *)
Definition stop_at_once (u : nat) (_ _ : string) : Z * nat := (0, S u).

End Samples.

(** ** More sample hosts and callbacks *)

Module MoreSamples.
Import Samples.

(** As [sample_os], but the path "C:\dir\?" does not convert to the native
    encoding and the entry name "c" does not convert to UTF-8. *)
Definition picky_os : Win32 := {|
  malloc_ok := malloc_ok sample_os;
  utf8_to_wide := fun s =>
    if String.eqb s "C:\dir\?" then None else Some (wide s);
  wide_to_utf8 := fun w =>
    if wchars_eqb w (wide "c") then None else Some (narrow w);
  logical_drives := logical_drives sample_os;
  find_first := find_first sample_os;
  file_attributes := file_attributes sample_os;
  remove_directory := remove_directory sample_os;
  delete_file := delete_file sample_os;
  move_file_ex := move_file_ex sample_os;
  create_directory := create_directory sample_os
|}.

(** As [sample_os], with bits set above that of drive Z: as well. *)
Definition noisy_os : Win32 := {|
  malloc_ok := malloc_ok sample_os;
  utf8_to_wide := utf8_to_wide sample_os;
  wide_to_utf8 := wide_to_utf8 sample_os;
  logical_drives := 5 + 2 ^ 26 + 2 ^ 31;
  find_first := find_first sample_os;
  file_attributes := file_attributes sample_os;
  remove_directory := remove_directory sample_os;
  delete_file := delete_file sample_os;
  move_file_ex := move_file_ex sample_os;
  create_directory := create_directory sample_os
|}.

(** Appends each name to the user data and always asks for more. *)
Definition collect_cb (u : list string) (_ name : string)
  : Z * list string := (1, u ++ [name]).

End MoreSamples.

(** * Properties *)

(** ** Time converter *)

Module TimeFacts.
Import Int Time.

Lemma testbit_DWORD_high (z n : Z) :
  is_DWORD z -> 32 <= n -> Z.testbit z n = false.
Proof.
  intros [Hlo Hhi] Hn.
  destruct (Z.eq_dec z 0) as [-> | Hz]; [apply Z.bits_0 |].
  apply Z.bits_above_log2; [assumption |].
  apply Z.lt_le_trans with 32; [| assumption].
  apply Z.log2_lt_pow2; lia.
Qed.

Lemma QuadPart_ticks (lo hi : Z) :
  is_DWORD lo -> is_DWORD hi -> QuadPart lo hi = lo + 2 ^ 32 * hi.
Proof.
  intros Hlo Hhi. unfold QuadPart.
  assert (Hdisj : Z.land (Z.shiftl hi 32) lo = 0).
  { apply Z.bits_inj'; intros n Hn.
    rewrite Z.land_spec, Z.bits_0.
    destruct (Z.lt_ge_cases n 32) as [Hlt | Hge].
    - rewrite Z.shiftl_spec_low by assumption. reflexivity.
    - rewrite (testbit_DWORD_high lo n Hlo Hge). apply andb_false_r. }
  rewrite <- Z.lxor_lor, <- Z.add_nocarry_lxor by exact Hdisj.
  rewrite Z.shiftl_mul_pow2 by lia. lia.
Qed.

Lemma ticks_range (ft : FILETIME) :
  wf_FILETIME ft -> is_Uint64 (ticks ft).
Proof.
  intros [[? ?] [? ?]]. unfold ticks, is_Uint64 in *. lia.
Qed.

Lemma delta_value : delta_1601_epoch_100ns = 11644473600 * 10 ^ 7.
Proof. reflexivity. Qed.

Lemma divisor_value : to_Uint64 (SDL_NS_PER_SECOND / 100) = 10 ^ 7.
Proof. reflexivity. Qed.

Lemma FileTimeToSDLTime_ticks (ft : FILETIME) :
  wf_FILETIME ft ->
  FileTimeToSDLTime ft =
    if ticks ft =? 0 then 0
    else to_Sint64 (((ticks ft - 11644473600 * 10 ^ 7) mod 2 ^ 64) / 10 ^ 7).
Proof.
  intros Hwf. pose proof (ticks_range ft Hwf) as Hr.
  destruct Hwf as [Hlo Hhi]. unfold FileTimeToSDLTime.
  rewrite (QuadPart_ticks _ _ Hlo Hhi). fold (ticks ft).
  destruct (ticks ft =? 0); [reflexivity |].
  rewrite divisor_value, delta_value.
  unfold to_Uint64 at 2. rewrite (Z.mod_small (ticks ft)) by exact Hr.
  reflexivity.
Qed.

(** The quotient always fits the signed type: the narrowing keeps it. *)
Lemma quotient_narrowing (x : Z) :
  0 <= (x mod 2 ^ 64) / 10 ^ 7 < 2 ^ 63 /\
  to_Sint64 ((x mod 2 ^ 64) / 10 ^ 7) = (x mod 2 ^ 64) / 10 ^ 7.
Proof.
  pose proof (Z.mod_pos_bound x (2 ^ 64) ltac:(lia)) as Hm.
  assert (Hq : 0 <= (x mod 2 ^ 64) / 10 ^ 7 < 2 ^ 63).
  { split; [apply Z.div_pos; lia |].
    apply Z.div_lt_upper_bound; lia. }
  split; [exact Hq |].
  unfold to_Sint64. rewrite (Z.mod_small _ (2 ^ 64)) by lia.
  destruct (Z.ltb_spec ((x mod 2 ^ 64) / 10 ^ 7) (2 ^ 63)); lia.
Qed.

(** C4, amended: the all-zero value converts to 0; any other value [t]
    converts to the signed narrowing of [(t - 11644473600*10^7) / 10^7]
    taken in unsigned 64-bit arithmetic.  The offset constant does not
    overflow and the quotient is below 2^63, so the narrowing keeps it;
    the subtraction is exact from the Unix epoch onwards and wraps modulo
    2^64 below it. *)
Theorem FileTimeToSDLTime_spec (ft : FILETIME) :
  wf_FILETIME ft ->
  (ticks ft = 0 -> FileTimeToSDLTime ft = 0) /\
  (ticks ft <> 0 ->
   let difference := (ticks ft - 11644473600 * 10 ^ 7) mod 2 ^ 64 in
   let quotient := difference / 10 ^ 7 in
   FileTimeToSDLTime ft =
     (if quotient <? 2 ^ 63 then quotient else quotient - 2 ^ 64) /\
   delta_1601_epoch_100ns = 11644473600 * 10 ^ 7 /\
   0 <= quotient < 2 ^ 63 /\
   FileTimeToSDLTime ft = quotient /\
   (11644473600 * 10 ^ 7 <= ticks ft ->
    difference = ticks ft - 11644473600 * 10 ^ 7 /\
    FileTimeToSDLTime ft = (ticks ft - 11644473600 * 10 ^ 7) / 10 ^ 7) /\
   (ticks ft < 11644473600 * 10 ^ 7 ->
    difference = 2 ^ 64 + ticks ft - 11644473600 * 10 ^ 7 /\
    FileTimeToSDLTime ft
    = (2 ^ 64 + ticks ft - 11644473600 * 10 ^ 7) / 10 ^ 7)).
Proof.
  intros Hwf. pose proof (ticks_range ft Hwf) as Hr.
  unfold is_Uint64 in Hr.
  rewrite (FileTimeToSDLTime_ticks ft Hwf).
  split.
  - intros ->. reflexivity.
  - intros Hnz. apply Z.eqb_neq in Hnz. rewrite Hnz. cbv zeta.
    destruct (quotient_narrowing (ticks ft - 11644473600 * 10 ^ 7))
      as [Hq Hn].
    rewrite Hn.
    split.
    { destruct (Z.ltb_spec
                  (((ticks ft - 11644473600 * 10 ^ 7) mod 2 ^ 64) / 10 ^ 7)
                  (2 ^ 63)); [reflexivity | lia]. }
    split; [reflexivity |]. split; [exact Hq |]. split; [reflexivity |].
    split.
    + intros Hge.
      assert (E : (ticks ft - 11644473600 * 10 ^ 7) mod 2 ^ 64
                  = ticks ft - 11644473600 * 10 ^ 7)
        by (apply Z.mod_small; lia).
      rewrite E. split; reflexivity.
    + intros Hlt.
      assert (E : (ticks ft - 11644473600 * 10 ^ 7) mod 2 ^ 64
                  = 2 ^ 64 + ticks ft - 11644473600 * 10 ^ 7)
        by (symmetry; apply Z.mod_unique with (q := -1); lia).
      rewrite E. split; reflexivity.
Qed.

Lemma FileTimeToSDLTime_spec_witness :
  FileTimeToSDLTime (mkFILETIME 0 0) = 0 /\
  FileTimeToSDLTime (mkFILETIME 3577643008 27111902) = 0 /\
  FileTimeToSDLTime (mkFILETIME 1 0) = 1833029933770.
Proof.
  split; [| split].
  - apply (FileTimeToSDLTime_spec (mkFILETIME 0 0)).
    + unfold wf_FILETIME, is_DWORD; simpl; lia.
    + reflexivity.
  - assert (Hwf : wf_FILETIME (mkFILETIME 3577643008 27111902))
      by (unfold wf_FILETIME, is_DWORD; simpl; lia).
    destruct (FileTimeToSDLTime_spec _ Hwf) as [_ H].
    assert (Hnz : ticks (mkFILETIME 3577643008 27111902) <> 0)
      by (vm_compute; discriminate).
    destruct (H Hnz) as (_ & _ & _ & _ & Hpost & _).
    destruct Hpost as [_ Hpost]; [vm_compute; discriminate |].
    rewrite Hpost. reflexivity.
  - assert (Hwf : wf_FILETIME (mkFILETIME 1 0))
      by (unfold wf_FILETIME, is_DWORD; simpl; lia).
    destruct (FileTimeToSDLTime_spec _ Hwf) as [_ H].
    assert (Hnz : ticks (mkFILETIME 1 0) <> 0)
      by (vm_compute; discriminate).
    destruct (H Hnz) as (_ & _ & _ & _ & _ & Hpre).
    destruct Hpre as [_ Hpre]; [vm_compute; reflexivity |].
    rewrite Hpre. reflexivity.
Defined.

(** The claim C4 as worded fails: one tick after 1601 the subtraction
    wraps, and the result is neither quotient of the exact difference. *)
Lemma FileTimeToSDLTime_not_exact :
  ~ (forall ft : FILETIME,
       wf_FILETIME ft ->
       ticks ft <> 0 ->
       FileTimeToSDLTime ft = (ticks ft - 11644473600 * 10 ^ 7) / 10 ^ 7 \/
       FileTimeToSDLTime ft
       = Z.quot (ticks ft - 11644473600 * 10 ^ 7) (10 ^ 7)).
Proof.
  intros H.
  assert (Hwf : wf_FILETIME (mkFILETIME 1 0))
    by (unfold wf_FILETIME, is_DWORD; simpl; lia).
  assert (Hnz : ticks (mkFILETIME 1 0) <> 0) by (vm_compute; discriminate).
  destruct (H (mkFILETIME 1 0) Hwf Hnz) as [E | E];
    vm_compute in E; discriminate E.
Qed.

(** C10: a nonzero tick count below the 1601-to-1970 offset makes the
    unsigned subtraction wrap modulo 2^64 before the division; the result
    is the quotient of the wrapped difference, a positive number, and not
    the negative count of seconds before the Unix epoch. *)
Theorem FileTimeToSDLTime_pre_epoch (ft : FILETIME) :
  wf_FILETIME ft ->
  0 < ticks ft < 11644473600 * 10 ^ 7 ->
  FileTimeToSDLTime ft =
    to_Sint64 (((ticks ft - 11644473600 * 10 ^ 7) mod 2 ^ 64) / 10 ^ 7) /\
  (ticks ft - 11644473600 * 10 ^ 7) mod 2 ^ 64 =
    2 ^ 64 + ticks ft - 11644473600 * 10 ^ 7 /\
  FileTimeToSDLTime ft = (2 ^ 64 + ticks ft - 11644473600 * 10 ^ 7) / 10 ^ 7 /\
  0 < FileTimeToSDLTime ft /\
  (ticks ft - 11644473600 * 10 ^ 7) / 10 ^ 7 < 0 /\
  FileTimeToSDLTime ft <> (ticks ft - 11644473600 * 10 ^ 7) / 10 ^ 7.
Proof.
  intros Hwf Ht.
  rewrite (FileTimeToSDLTime_ticks ft Hwf).
  assert (Hnz : (ticks ft =? 0) = false) by (apply Z.eqb_neq; lia).
  rewrite Hnz.
  assert (Hwrap : (ticks ft - 11644473600 * 10 ^ 7) mod 2 ^ 64 =
                  2 ^ 64 + ticks ft - 11644473600 * 10 ^ 7).
  { symmetry. apply Z.mod_unique with (q := -1); lia. }
  destruct (quotient_narrowing (ticks ft - 11644473600 * 10 ^ 7))
    as [_ Hn].
  assert (Hpos : 0 < (2 ^ 64 + ticks ft - 11644473600 * 10 ^ 7) / 10 ^ 7).
  { apply Z.div_str_pos; lia. }
  assert (Hneg : (ticks ft - 11644473600 * 10 ^ 7) / 10 ^ 7 < 0).
  { apply Z.div_lt_upper_bound; lia. }
  rewrite Hn, Hwrap.
  repeat split; try reflexivity; lia.
Qed.

Lemma FileTimeToSDLTime_pre_epoch_witness :
  FileTimeToSDLTime (mkFILETIME 1 0) = 1833029933770.
Proof.
  assert (Hwf : wf_FILETIME (mkFILETIME 1 0))
    by (unfold wf_FILETIME, is_DWORD; simpl; lia).
  assert (Ht : 0 < ticks (mkFILETIME 1 0) < 11644473600 * 10 ^ 7)
    by (vm_compute; split; reflexivity).
  destruct (FileTimeToSDLTime_pre_epoch _ Hwf Ht) as (_ & _ & H & _).
  rewrite H. reflexivity.
Defined.

End TimeFacts.

(** ** Stat *)

Module StatFacts.
Import Int.

Lemma land_pow2 (a k : Z) :
  0 <= k -> Z.land a (2 ^ k) = if Z.testbit a k then 2 ^ k else 0.
Proof.
  intros Hk. apply Z.bits_inj'; intros n Hn.
  rewrite Z.land_spec, Z.pow2_bits_eqb by assumption.
  destruct (Z.eqb_spec k n) as [-> | Hne].
  - destruct (Z.testbit a n); simpl.
    + rewrite Z.pow2_bits_true by assumption. reflexivity.
    + rewrite Z.bits_0. reflexivity.
  - rewrite andb_false_r.
    destruct (Z.testbit a k).
    + rewrite Z.pow2_bits_false by assumption. reflexivity.
    + rewrite Z.bits_0. reflexivity.
Qed.

Lemma land_pow2_eqb (a k : Z) :
  0 <= k -> (Z.land a (2 ^ k) =? 0) = negb (Z.testbit a k).
Proof.
  intros Hk. rewrite (land_pow2 a k Hk).
  destruct (Z.testbit a k); simpl; [| reflexivity].
  apply Z.eqb_neq. pose proof (Z.pow_pos_nonneg 2 k); lia.
Qed.

Lemma directory_bit (a : Z) :
  (Z.land a FILE_ATTRIBUTE_DIRECTORY =? 0) = negb (Z.testbit a 4).
Proof. exact (land_pow2_eqb a 4 ltac:(lia)). Qed.

Lemma offline_or_device_bits (a : Z) :
  (Z.land a (Z.lor FILE_ATTRIBUTE_OFFLINE FILE_ATTRIBUTE_DEVICE) =? 0)
  = negb (Z.testbit a 12 || Z.testbit a 6).
Proof.
  rewrite Z.land_lor_distr_r.
  pose proof (land_pow2_eqb a 12 ltac:(lia)) as H12.
  pose proof (land_pow2_eqb a 6 ltac:(lia)) as H6.
  change (2 ^ 12) with FILE_ATTRIBUTE_OFFLINE in H12.
  change (2 ^ 6) with FILE_ATTRIBUTE_DEVICE in H6.
  rewrite negb_orb, <- H12, <- H6.
  destruct (Z.eqb_spec (Z.lor (Z.land a FILE_ATTRIBUTE_OFFLINE)
                              (Z.land a FILE_ATTRIBUTE_DEVICE)) 0) as [E | E].
  - apply Z.lor_eq_0_iff in E. destruct E as [-> ->]. reflexivity.
  - destruct (Z.eqb_spec (Z.land a FILE_ATTRIBUTE_OFFLINE) 0) as [E1 | E1];
      [| reflexivity].
    destruct (Z.eqb_spec (Z.land a FILE_ATTRIBUTE_DEVICE) 0) as [E2 | E2];
      [| reflexivity].
    exfalso. apply E. rewrite E1, E2. reflexivity.
Qed.

Lemma file_size_words (winstat : WIN32_FILE_ATTRIBUTE_DATA) :
  is_DWORD (nFileSizeHigh winstat) ->
  is_DWORD (nFileSizeLow winstat) ->
  file_size winstat = nFileSizeLow winstat + 2 ^ 32 * nFileSizeHigh winstat.
Proof.
  intros Hhi Hlo. unfold file_size, to_Uint64.
  pose proof Hhi as [? ?]. 
  rewrite (Z.mod_small (nFileSizeHigh winstat)) by lia.
  rewrite Z.shiftl_mul_pow2 by lia.
  rewrite Z.mod_small by lia.
  rewrite <- Z.shiftl_mul_pow2 by lia.
  exact (TimeFacts.QuadPart_ticks _ _ Hlo Hhi).
Qed.

Lemma fill_info_classified (winstat : WIN32_FILE_ATTRIBUTE_DATA) :
  is_DWORD (nFileSizeHigh winstat) ->
  is_DWORD (nFileSizeLow winstat) ->
  classified winstat (fill_info winstat).
Proof.
  intros Hhi Hlo. unfold classified, fill_info.
  rewrite directory_bit, offline_or_device_bits, !negb_involutive.
  rewrite (file_size_words winstat Hhi Hlo).
  destruct (Z.testbit (dwFileAttributes winstat) 4);
    destruct (Z.testbit (dwFileAttributes winstat) 12);
    destruct (Z.testbit (dwFileAttributes winstat) 6); simpl;
    repeat split; intros; try reflexivity; try discriminate;
    intuition discriminate.
Qed.

End StatFacts.

(** ** Resources *)

Module ResourceFacts.

Lemma resource_eqb_refl (r : resource) : resource_eqb r r = true.
Proof. destruct r; simpl; apply Nat.eqb_refl. Qed.

Lemma resource_eqb_id (a b : resource) :
  resource_id a <> resource_id b -> resource_eqb a b = false.
Proof.
  destruct a, b; simpl; intros H; try reflexivity;
    apply Nat.eqb_neq; exact H.
Qed.

Lemma filter_absent (r : resource) (l : list resource) :
  Forall (fun x => resource_eqb x r = false) l ->
  filter (fun x => negb (resource_eqb x r)) l = l.
Proof.
  induction 1 as [| x l Hx _ IH]; simpl; [reflexivity |].
  rewrite Hx. simpl. rewrite IH. reflexivity.
Qed.

Lemma filter_release_last (r : resource) (l : list resource) :
  Forall (fun x => resource_eqb x r = false) l ->
  filter (fun x => negb (resource_eqb x r)) (l ++ [r]) = l.
Proof.
  intros H. rewrite filter_app, (filter_absent r l H). simpl.
  rewrite resource_eqb_refl. simpl. apply app_nil_r.
Qed.

Lemma older_absent (l : list resource) (n : nat) (r : resource) :
  Forall (fun x => (resource_id x < n)%nat) l ->
  (n <= resource_id r)%nat ->
  Forall (fun x => resource_eqb x r = false) l.
Proof.
  intros H Hn. eapply Forall_impl; [| exact H].
  intros x Hx. apply resource_eqb_id. simpl in *. lia.
Qed.

Lemma older_weaken (l : list resource) (n m : nat) :
  Forall (fun x => (resource_id x < n)%nat) l ->
  (n <= m)%nat ->
  Forall (fun x => (resource_id x < m)%nat) l.
Proof.
  intros H Hn. eapply Forall_impl; [| exact H].
  intros x Hx. simpl in *. lia.
Qed.

(** A buffer or handle acquired last and released is gone, and nothing
    else is. *)
Lemma release_acquired (l : list resource) (n : nat) (r : resource) :
  Forall (fun x => (resource_id x < n)%nat) l ->
  (n <= resource_id r)%nat ->
  filter (fun x => negb (resource_eqb x r)) (l ++ [r]) = l.
Proof.
  intros H Hn. apply filter_release_last.
  exact (older_absent l n r H Hn).
Qed.

(** Releasing one of two buffers acquired in a row keeps the other. *)
Lemma release_second (l : list resource) (n : nat) (a b : resource) :
  Forall (fun x => (resource_id x < n)%nat) l ->
  (n <= resource_id a < resource_id b)%nat ->
  filter (fun x => negb (resource_eqb x b)) (l ++ [a] ++ [b]) = l ++ [a].
Proof.
  intros H Hn. rewrite app_assoc. apply filter_release_last.
  apply Forall_app. split.
  - apply (older_absent l n b H). lia.
  - constructor; [| constructor]. apply resource_eqb_id. lia.
Qed.

(** Releasing the first of two buffers acquired in a row keeps the
    second. *)
Lemma release_first (l : list resource) (n : nat) (a b : resource) :
  Forall (fun x => (resource_id x < n)%nat) l ->
  (n <= resource_id a < resource_id b)%nat ->
  filter (fun x => negb (resource_eqb x a)) ((l ++ [a]) ++ [b]) = l ++ [b].
Proof.
  intros H Hn. rewrite filter_app.
  rewrite (release_acquired l n a H) by lia.
  simpl. rewrite (resource_eqb_id b a) by lia. reflexivity.
Qed.

End ResourceFacts.

(** ** Remove, rename, create directory, stat *)

Section MutatorFacts.

Variable U : Type.
Variable os : Win32.

Import ResourceFacts.

Ltac run :=
  unfold SDL_SYS_FSremove, SDL_SYS_FSrename, SDL_SYS_FSmkdir, SDL_SYS_FSstat,
    WIN_UTF8ToString, GetFileAttributesExW, DeleteFileW, RemoveDirectoryW,
    MoveFileExW, CreateDirectoryW, WIN_SetError, SDL_free,
    bind, ret, emit, acquire, release; simpl.

(** What [SDL_SYS_FSremove] does when the attribute query fails. *)
Lemma SDL_SYS_FSremove_query_failed
    (fullpath : string) (s : state U) (wpath : WStr.wchars) (err : Z) :
  utf8_to_wide os fullpath = Some wpath ->
  file_attributes os wpath = inr err ->
  SDL_SYS_FSremove U os fullpath s =
    if err =? ERROR_FILE_NOT_FOUND
    then (0, mkState U (userdata s) (S (next_id s))
                     (live s ++ [Buffer (next_id s)])
                     (trace s ++ [EvGetFileAttributes wpath]))
    else (-1, mkState U (userdata s) (S (next_id s))
                      (live s ++ [Buffer (next_id s)])
                      ((trace s ++ [EvGetFileAttributes wpath])
                       ++ [EvSetError "Couldn't get path's attributes"])).
Proof.
  intros Hconv Hattr. run. rewrite Hconv. simpl. rewrite Hattr.
  destruct (err =? ERROR_FILE_NOT_FOUND); reflexivity.
Qed.


(** C2: with the path converted, a query that fails with file-not-found
    makes [SDL_SYS_FSremove] return 0, with no error reported and no
    deletion tried; one that fails with path-not-found makes it report the
    error and return the failure code [-1]. *)
Theorem SDL_SYS_FSremove_not_found
    (fullpath : string) (s : state U) (wpath : WStr.wchars) :
  utf8_to_wide os fullpath = Some wpath ->
  (file_attributes os wpath = inr ERROR_FILE_NOT_FOUND ->
   fst (SDL_SYS_FSremove U os fullpath s) = 0 /\
   trace (snd (SDL_SYS_FSremove U os fullpath s)) =
     trace s ++ [EvGetFileAttributes wpath]) /\
  (file_attributes os wpath = inr ERROR_PATH_NOT_FOUND ->
   fst (SDL_SYS_FSremove U os fullpath s) = -1 /\
   fst (SDL_SYS_FSremove U os fullpath s) <> 0 /\
   trace (snd (SDL_SYS_FSremove U os fullpath s)) =
     trace s ++ [EvGetFileAttributes wpath;
                 EvSetError "Couldn't get path's attributes"]).
Proof.
  intros Hconv. split; intros Hattr;
    rewrite (SDL_SYS_FSremove_query_failed fullpath s wpath _ Hconv Hattr);
    simpl.
  - split; reflexivity.
  - rewrite <- app_assoc. repeat split; try reflexivity. discriminate.
Qed.

(** C1, where the code departs from it: when the attribute query of
    [SDL_SYS_FSremove] fails, the call returns (0 on file-not-found, [-1]
    otherwise) with the converted wide-path buffer still held. *)
Theorem SDL_SYS_FSremove_leaks_wpath
    (fullpath : string) (s : state U) (wpath : WStr.wchars) (err : Z) :
  utf8_to_wide os fullpath = Some wpath ->
  file_attributes os wpath = inr err ->
  live (snd (SDL_SYS_FSremove U os fullpath s)) =
    live s ++ [Buffer (next_id s)] /\
  live (snd (SDL_SYS_FSremove U os fullpath s)) <> live s /\
  fst (SDL_SYS_FSremove U os fullpath s) =
    if err =? ERROR_FILE_NOT_FOUND then 0 else -1.
Proof.
  intros Hconv Hattr.
  rewrite (SDL_SYS_FSremove_query_failed fullpath s wpath err Hconv Hattr).
  assert (Hne : live s ++ [Buffer (next_id s)] <> live s).
  { intros E. apply (f_equal (@List.length resource)) in E.
    rewrite length_app in E. simpl in E. lia. }
  destruct (err =? ERROR_FILE_NOT_FOUND); simpl; repeat split;
    try reflexivity; exact Hne.
Qed.

(** On its other paths [SDL_SYS_FSremove] holds nothing when it returns. *)
Lemma SDL_SYS_FSremove_releases_otherwise (fullpath : string) (s : state U) :
  well_formed s ->
  (utf8_to_wide os fullpath = None \/
   exists wpath info,
     utf8_to_wide os fullpath = Some wpath /\
     file_attributes os wpath = inl info) ->
  live (snd (SDL_SYS_FSremove U os fullpath s)) = live s.
Proof.
  intros Hwf [Hconv | (wpath & info & Hconv & Hattr)]; run; rewrite Hconv;
    simpl; [reflexivity |].
  rewrite Hattr.
  destruct (Z.land (dwFileAttributes info) FILE_ATTRIBUTE_DIRECTORY =? 0);
    simpl.
  - destruct (delete_file os wpath); simpl;
      apply (release_acquired _ (next_id s)); auto.
  - destruct (remove_directory os wpath); simpl;
      apply (release_acquired _ (next_id s)); auto.
Qed.

Lemma SDL_SYS_FSmkdir_releases (fullpath : string) (s : state U) :
  well_formed s ->
  live (snd (SDL_SYS_FSmkdir U os fullpath s)) = live s.
Proof.
  intros Hwf. run. destruct (utf8_to_wide os fullpath) as [wpath |]; simpl;
    [| reflexivity].
  destruct (create_directory os wpath); simpl;
    apply (release_acquired _ (next_id s)); auto.
Qed.

Lemma SDL_SYS_FSstat_releases
    (fullpath : string) (info : SDL_PathInfo) (s : state U) :
  well_formed s ->
  live (snd (SDL_SYS_FSstat U os fullpath info s)) = live s.
Proof.
  intros Hwf. run. destruct (utf8_to_wide os fullpath) as [wpath |]; simpl;
    [| reflexivity].
  destruct (file_attributes os wpath); simpl;
    apply (release_acquired _ (next_id s)); auto.
Qed.

Lemma SDL_SYS_FSrename_releases (oldfullpath newfullpath : string)
    (s : state U) :
  well_formed s ->
  live (snd (SDL_SYS_FSrename U os oldfullpath newfullpath s)) = live s.
Proof.
  intros Hwf. run.
  destruct (utf8_to_wide os oldfullpath) as [woldpath |]; simpl;
    [| reflexivity].
  destruct (utf8_to_wide os newfullpath) as [wnewpath |]; simpl.
  - assert (E : filter (fun x => negb (resource_eqb x (Buffer (next_id s))))
                  (filter (fun x =>
                             negb (resource_eqb x (Buffer (S (next_id s)))))
                     ((live s ++ [Buffer (next_id s)])
                      ++ [Buffer (S (next_id s))])) = live s).
    { rewrite <- app_assoc.
      rewrite (release_second (live s) (next_id s)) by (simpl; auto).
      apply (release_acquired _ (next_id s)); auto. }
    destruct (move_file_ex os woldpath wnewpath MOVEFILE_REPLACE_EXISTING);
      simpl; exact E.
  - apply (release_acquired _ (next_id s)); auto.
Qed.

(** C8: each path is converted on its own; when either conversion fails
    the call returns [-1] having issued no native call and holding no
    buffer; otherwise it issues exactly one [MoveFileExW], with
    [MOVEFILE_REPLACE_EXISTING], and again holds nothing on return. *)
Theorem SDL_SYS_FSrename_spec (oldfullpath newfullpath : string)
    (s : state U) :
  well_formed s ->
  live (snd (SDL_SYS_FSrename U os oldfullpath newfullpath s)) = live s /\
  match utf8_to_wide os oldfullpath, utf8_to_wide os newfullpath with
  | Some woldpath, Some wnewpath =>
      let moved :=
        move_file_ex os woldpath wnewpath MOVEFILE_REPLACE_EXISTING in
      trace (snd (SDL_SYS_FSrename U os oldfullpath newfullpath s)) =
        trace s
        ++ EvMoveFileEx woldpath wnewpath MOVEFILE_REPLACE_EXISTING
           :: (if moved then [] else [EvSetError "Couldn't rename path"]) /\
      fst (SDL_SYS_FSrename U os oldfullpath newfullpath s) =
        if moved then 0 else -1
  | _, _ =>
      fst (SDL_SYS_FSrename U os oldfullpath newfullpath s) = -1 /\
      trace (snd (SDL_SYS_FSrename U os oldfullpath newfullpath s)) = trace s
  end.
Proof.
  intros Hwf. split; [exact (SDL_SYS_FSrename_releases _ _ s Hwf) |].
  run.
  destruct (utf8_to_wide os oldfullpath) as [woldpath |]; simpl.
  - destruct (utf8_to_wide os newfullpath) as [wnewpath |]; simpl.
    + destruct (move_file_ex os woldpath wnewpath MOVEFILE_REPLACE_EXISTING);
        simpl; split; try reflexivity.
      rewrite <- app_assoc. reflexivity.
    + split; reflexivity.
  - destruct (utf8_to_wide os newfullpath); split; reflexivity.
Qed.

(** Remove, rename and create-directory return 0 or [-1]; stat returns 1
    or [-1]. *)
Lemma mutators_return (p q : string) (s : state U) :
  (fst (SDL_SYS_FSremove U os p s) = 0 \/
   fst (SDL_SYS_FSremove U os p s) = -1) /\
  (fst (SDL_SYS_FSrename U os p q s) = 0 \/
   fst (SDL_SYS_FSrename U os p q s) = -1) /\
  (fst (SDL_SYS_FSmkdir U os p s) = 0 \/
   fst (SDL_SYS_FSmkdir U os p s) = -1).
Proof.
  repeat split; run.
  - destruct (utf8_to_wide os p) as [wpath |]; simpl; [| now right].
    destruct (file_attributes os wpath) as [info | err].
    + destruct (Z.land (dwFileAttributes info) FILE_ATTRIBUTE_DIRECTORY =? 0);
        simpl.
      * destruct (delete_file os wpath); simpl; [now left | now right].
      * destruct (remove_directory os wpath); simpl; [now left | now right].
    + destruct (err =? ERROR_FILE_NOT_FOUND); simpl; [now left | now right].
  - destruct (utf8_to_wide os p) as [wold |]; simpl; [| now right].
    destruct (utf8_to_wide os q) as [wnew |]; simpl; [| now right].
    destruct (move_file_ex os wold wnew MOVEFILE_REPLACE_EXISTING); simpl;
      [now left | now right].
  - destruct (utf8_to_wide os p) as [wpath |]; simpl; [| now right].
    destruct (create_directory os wpath); simpl; [now left | now right].
Qed.

(** C5: when the path converts and the attribute query succeeds, the call
    returns 1 and leaves in [info] the type and size its attribute case
    prescribes (directory bit: DIRECTORY and 0; else offline or device
    bit: OTHER and the size from the high and low words; else FILE and the
    same size) and the three timestamps, each the conversion of its own
    native field.  The other mutating operations never return 1: their
    success is 0. *)
Theorem SDL_SYS_FSstat_populates
    (fullpath : string) (info0 : SDL_PathInfo) (s : state U)
    (wpath : WStr.wchars) (winstat : WIN32_FILE_ATTRIBUTE_DATA) :
  utf8_to_wide os fullpath = Some wpath ->
  file_attributes os wpath = inl winstat ->
  Int.is_DWORD (nFileSizeHigh winstat) ->
  Int.is_DWORD (nFileSizeLow winstat) ->
  (exists info,
     fst (SDL_SYS_FSstat U os fullpath info0 s) = (1, info) /\
     classified winstat info /\
     create_time info = Time.FileTimeToSDLTime (ftCreationTime winstat) /\
     modify_time info = Time.FileTimeToSDLTime (ftLastWriteTime winstat) /\
     access_time info = Time.FileTimeToSDLTime (ftLastAccessTime winstat)) /\
  (forall p q s',
     fst (SDL_SYS_FSremove U os p s') <> 1 /\
     fst (SDL_SYS_FSrename U os p q s') <> 1 /\
     fst (SDL_SYS_FSmkdir U os p s') <> 1).
Proof.
  intros Hconv Hattr Hhi Hlo. split.
  - exists (fill_info winstat).
    split.
    + run. rewrite Hconv. simpl. rewrite Hattr. reflexivity.
    + split; [exact (StatFacts.fill_info_classified winstat Hhi Hlo) |].
      unfold fill_info.
      destruct (negb _); [| destruct (negb _)]; simpl;
        repeat split.
  - intros p q s'.
    destruct (mutators_return p q s') as ([E | E] & [E1 | E1] & [E2 | E2]);
      rewrite E, E1, E2; repeat split; discriminate.
Qed.

End MutatorFacts.

Lemma SDL_SYS_FSremove_not_found_witness :
  fst (SDL_SYS_FSremove nat Samples.sample_os "C:\dir\gone" (init 0%nat)) = 0
  /\ fst (SDL_SYS_FSremove nat Samples.sample_os "C:\nodir\x" (init 0%nat))
     = -1.
Proof.
  split.
  - apply (SDL_SYS_FSremove_not_found nat Samples.sample_os "C:\dir\gone"
             (init 0%nat) (Samples.wide "C:\dir\gone")); reflexivity.
  - apply (SDL_SYS_FSremove_not_found nat Samples.sample_os "C:\nodir\x"
             (init 0%nat) (Samples.wide "C:\nodir\x")); reflexivity.
Defined.

Lemma SDL_SYS_FSremove_leaks_wpath_witness :
  live (snd (SDL_SYS_FSremove nat Samples.sample_os "C:\dir\gone"
               (init 0%nat))) = [Buffer 0].
Proof.
  apply (SDL_SYS_FSremove_leaks_wpath nat Samples.sample_os "C:\dir\gone"
           (init 0%nat) (Samples.wide "C:\dir\gone") ERROR_FILE_NOT_FOUND);
    reflexivity.
Defined.

Lemma SDL_SYS_FSrename_spec_witness :
  fst (SDL_SYS_FSrename nat Samples.sample_os "C:\dir\a" "C:\dir\b"
         (init 0%nat)) = 0.
Proof.
  assert (Hwf : well_formed (init 0%nat)) by constructor.
  destruct (SDL_SYS_FSrename_spec nat Samples.sample_os
              "C:\dir\a" "C:\dir\b" (init 0%nat) Hwf) as [_ H].
  simpl in H. destruct H as [_ H]. exact H.
Defined.

Lemma SDL_SYS_FSstat_populates_witness :
  exists info,
    fst (SDL_SYS_FSstat nat Samples.sample_os "C:\dir\a"
           (mkPathInfo SDL_PATHTYPE_NONE 0 0 0 0) (init 0%nat)) = (1, info)
    /\ type info = SDL_PATHTYPE_FILE /\ size info = 1234.
Proof.
  destruct (SDL_SYS_FSstat_populates nat Samples.sample_os "C:\dir\a"
              (mkPathInfo SDL_PATHTYPE_NONE 0 0 0 0) (init 0%nat)
              (Samples.wide "C:\dir\a") Samples.file_data)
    as [(info & Hret & (_ & _ & Hfile) & _) _];
    try reflexivity; try (unfold Int.is_DWORD; simpl; lia).
  exists info. split; [exact Hret |].
  apply Hfile; reflexivity.
Defined.

(** ** Names and patterns *)

Module NameFacts.

Lemma substring_whole (s : string) : substring 0 (String.length s) s = s.
Proof. induction s as [| c s IH]; simpl; [| rewrite IH]; reflexivity. Qed.

Lemma length_append (s t : string) :
  String.length (s ++ t) = (String.length s + String.length t)%nat.
Proof. induction s as [| c s IH]; simpl; [| rewrite IH]; reflexivity. Qed.

(** The pattern buffer is large enough: nothing of "path\*" is cut. *)
Lemma snprintf_pattern (fullpath : string) :
  SDL_snprintf (SDL_strlen fullpath + 3) (fullpath ++ "\*")
  = (fullpath ++ "\*")%string.
Proof.
  unfold SDL_snprintf, SDL_strlen.
  replace (Z.to_nat (Z.of_nat (String.length fullpath) + 3 - 1))
    with (String.length (fullpath ++ "\*")%string).
  - apply substring_whole.
  - rewrite length_append. simpl. lia.
Qed.

Lemma wchars_eqb_eq (a b : WStr.wchars) : wchars_eqb a b = true <-> a = b.
Proof.
  revert b. induction a as [| x a IH]; intros [| y b]; simpl;
    try (split; [discriminate | intros E; discriminate E]);
    [split; reflexivity |].
  rewrite andb_true_iff, Z.eqb_eq, IH.
  split; [intros [-> ->]; reflexivity | intros E; inversion E; auto].
Qed.

(** The test of the loop body recognises exactly the names "." and "..". *)
Lemma is_dot_or_dotdot_names (fn : WStr.wchars) :
  is_dot_or_dotdot fn = names_dot fn.
Proof.
  unfold is_dot_or_dotdot, names_dot, WStr.at_, WStr.dot.
  destruct fn as [| c0 fn]; [reflexivity |]. simpl.
  destruct (Z.eqb_spec c0 46) as [-> | H0].
  - simpl. destruct fn as [| c1 fn]; [reflexivity |]. simpl.
    destruct (Z.eqb_spec c1 0) as [-> | H1]; [reflexivity |]. simpl.
    destruct (Z.eqb_spec c1 46) as [-> | H1']; simpl.
    + destruct fn as [| c2 fn]; [reflexivity |]. simpl.
      destruct (Z.eqb_spec c2 0); reflexivity.
    + destruct fn; reflexivity.
  - simpl. destruct (c0 =? 0); simpl; [reflexivity |].
    apply Z.eqb_neq in H0. rewrite H0. reflexivity.
Qed.

Lemma names_dot_iff (fn : WStr.wchars) :
  names_dot fn = true <->
  WStr.wcs fn = [WStr.dot] \/ WStr.wcs fn = [WStr.dot; WStr.dot].
Proof.
  unfold names_dot. rewrite orb_true_iff, !wchars_eqb_eq. reflexivity.
Qed.

Lemma letters_upto : letters = upto char_A 26.
Proof. reflexivity. Qed.

(** [drives & (1 << (i - 'A'))] tests bit [i - 'A']. *)
Lemma drive_present_testbit (drives i : Z) :
  char_A <= i -> drive_present drives i = Z.testbit drives (i - char_A).
Proof.
  intros Hi. unfold drive_present.
  rewrite Z.shiftl_mul_pow2, Z.mul_1_l by lia.
  rewrite StatFacts.land_pow2_eqb by lia.
  apply negb_involutive.
Qed.

End NameFacts.

(** ** Traces *)

Module TraceFacts.

Lemma calls_app (a b : list event) : calls (a ++ b) = calls a ++ calls b.
Proof.
  induction a as [| e a IH]; simpl; [reflexivity |].
  destruct e; simpl; rewrite IH; reflexivity.
Qed.

Lemma delivered_app (a b : list event) :
  delivered (a ++ b) = delivered a ++ delivered b.
Proof. unfold delivered. rewrite calls_app. apply map_app. Qed.

Lemma found_app (a b : list event) : found (a ++ b) = found a ++ found b.
Proof.
  induction a as [| e a IH]; simpl; [reflexivity |].
  destruct e as [| p [fn |] | [fn |] | | | | | | | |]; simpl; rewrite IH;
    reflexivity.
Qed.

Lemma no_stop_app (a b : list event) :
  no_stop (a ++ b) <-> no_stop a /\ no_stop b.
Proof. apply Forall_app. Qed.

Lemma no_stop_snoc (a : list event) (e : event) :
  no_stop a -> is_stop e = None -> no_stop (a ++ [e]).
Proof.
  intros Ha He. apply no_stop_app. split; [exact Ha |].
  constructor; [exact He | constructor].
Qed.

Lemma is_stop_callback (d n : string) (v : Z) :
  v <> 1 -> is_stop (EvCallback d n v) = Some v.
Proof.
  intros Hv. simpl. apply Z.eqb_neq in Hv. rewrite Hv. reflexivity.
Qed.

(** A trace with a single stopping invocation splits around it in one way
    only. *)
Lemma stop_unique (tr0 tl pre post : list event) (x y : event) :
  tr0 ++ x :: tl = pre ++ y :: post ->
  no_stop tr0 -> no_stop tl ->
  is_stop y <> None ->
  tr0 = pre /\ x = y /\ tl = post.
Proof.
  revert pre. induction tr0 as [| e tr0 IH]; intros pre E H0 Htl Hy.
  - destruct pre as [| p pre]; simpl in E.
    + injection E as -> ->. auto.
    + injection E as -> ->. exfalso.
      apply no_stop_app in Htl. destruct Htl as [_ Htl].
      apply Hy. exact (Forall_inv Htl).
  - destruct pre as [| p pre]; simpl in E.
    + injection E as -> _. exfalso. apply Hy. exact (Forall_inv H0).
    + injection E as -> E.
      destruct (IH pre E (Forall_inv_tail H0) Htl Hy) as (-> & -> & ->).
      auto.
Qed.

(** A trace without stopping invocation contains none. *)
Lemma no_stop_split (pre post : list event) (d n : string) (v : Z) :
  no_stop (pre ++ EvCallback d n v :: post) -> v = 1.
Proof.
  intros H. apply no_stop_app in H. destruct H as [_ H].
  inversion H as [| e l He _]; subst. simpl in He.
  destruct (Z.eqb_spec v 1); [assumption | discriminate].
Qed.

End TraceFacts.

(** ** Enumeration: the two loops *)

Section LoopFacts.

Variable U : Type.
Variable os : Win32.
Variable cb : U -> string -> string -> Z * U.
Variable dirname : string.

Import ResourceFacts TraceFacts NameFacts.

(** The three ways through the body of the [do] loop. *)
Lemma enum_body_eq (entw : WStr.wchars) (retval : Z) (s : state U) :
  enum_body U os cb dirname entw retval s =
    if names_dot entw then (retval, s)
    else match wide_to_utf8 os (WStr.wcs entw) with
         | None => (-1, s)
         | Some name =>
             let out := cb (userdata s) dirname name in
             (fst out,
              mkState U (snd out) (S (next_id s))
                (filter (fun x => negb (resource_eqb x (Buffer (next_id s))))
                        (live s ++ [Buffer (next_id s)]))
                (trace s ++ [EvCallback dirname name (fst out)]))
         end.
Proof.
  unfold enum_body. rewrite is_dot_or_dotdot_names.
  destruct (names_dot entw); [reflexivity |].
  unfold WIN_StringToUTF8, bind.
  destruct (wide_to_utf8 os (WStr.wcs entw)) as [name |]; [| reflexivity].
  unfold acquire, ret, call_cb, SDL_free, release. simpl.
  destruct (cb (userdata s) dirname name) as [v u]. reflexivity.
Qed.

Lemma enum_loop_unfold (entw : WStr.wchars) (rest : list WStr.wchars)
    (retval : Z) (s : state U) :
  enum_loop U os cb dirname entw rest retval s =
    let (retval', s1) := enum_body U os cb dirname entw retval s in
    if retval' =? 1 then
      match rest with
      | [] => (retval', with_event s1 (EvFindNext None))
      | entw' :: rest' =>
          enum_loop U os cb dirname entw' rest' retval'
                    (with_event s1 (EvFindNext (Some entw')))
      end
    else (retval', s1).
Proof.
  destruct rest as [| entw' rest']; simpl; unfold bind;
    destruct (enum_body U os cb dirname entw retval s) as [r s1];
    destruct (r =? 1); reflexivity.
Qed.

(** Induction along the passes of the [do] loop. *)
Lemma enum_loop_ind
    (Q : WStr.wchars -> list WStr.wchars -> Z -> state U -> Z * state U
         -> Prop) :
  (forall entw rest retval s r s1,
     enum_body U os cb dirname entw retval s = (r, s1) ->
     r <> 1 -> Q entw rest retval s (r, s1)) ->
  (forall entw retval s s1,
     enum_body U os cb dirname entw retval s = (1, s1) ->
     Q entw [] retval s (1, with_event s1 (EvFindNext None))) ->
  (forall entw entw' rest' retval s s1 out,
     enum_body U os cb dirname entw retval s = (1, s1) ->
     Q entw' rest' 1 (with_event s1 (EvFindNext (Some entw'))) out ->
     Q entw (entw' :: rest') retval s out) ->
  forall entw rest retval s,
    Q entw rest retval s (enum_loop U os cb dirname entw rest retval s).
Proof.
  intros Hstop Hlast Hmore entw rest. revert entw.
  induction rest as [| entw' rest' IH]; intros entw retval s;
    rewrite enum_loop_unfold;
    destruct (enum_body U os cb dirname entw retval s) as [r s1] eqn:Hbody;
    destruct (Z.eqb_spec r 1) as [-> | Hr].
  - apply Hlast. exact Hbody.
  - apply Hstop; assumption.
  - apply (Hmore _ _ _ _ _ s1); [exact Hbody | apply IH].
  - apply Hstop; assumption.
Qed.

(** One pass through the body holds nothing more at its end than at its
    start. *)
Lemma enum_body_live (entw : WStr.wchars) (retval : Z) (s : state U) :
  well_formed s ->
  live (snd (enum_body U os cb dirname entw retval s)) = live s /\
  well_formed (snd (enum_body U os cb dirname entw retval s)).
Proof.
  intros Hwf. rewrite enum_body_eq.
  destruct (names_dot entw); [split; [reflexivity | exact Hwf] |].
  destruct (wide_to_utf8 os (WStr.wcs entw)) as [name |];
    [| split; [reflexivity | exact Hwf]].
  simpl.
  assert (E : filter (fun x => negb (resource_eqb x (Buffer (next_id s))))
                (live s ++ [Buffer (next_id s)]) = live s)
    by (apply (release_acquired _ (next_id s)); auto).
  split; [exact E |].
  unfold well_formed. simpl. rewrite E.
  apply (older_weaken _ (next_id s)); auto.
Qed.

Lemma enum_loop_live (entw : WStr.wchars) (rest : list WStr.wchars)
    (retval : Z) (s : state U) :
  well_formed s ->
  live (snd (enum_loop U os cb dirname entw rest retval s)) = live s /\
  well_formed (snd (enum_loop U os cb dirname entw rest retval s)).
Proof.
  apply (enum_loop_ind
           (fun _ _ _ s out =>
              well_formed s ->
              live (snd out) = live s /\ well_formed (snd out))).
  - intros e rs rv s0 r s1 Hbody _ Hwf.
    pose proof (enum_body_live e rv s0 Hwf) as H.
    rewrite Hbody in H. exact H.
  - intros e rv s0 s1 Hbody Hwf.
    pose proof (enum_body_live e rv s0 Hwf) as H.
    rewrite Hbody in H. exact H.
  - intros e e' rs' rv s0 s1 out Hbody IH Hwf.
    pose proof (enum_body_live e rv s0 Hwf) as H.
    rewrite Hbody in H. simpl in H. destruct H as [Hl Hw].
    destruct (IH Hw) as [Hl' Hw']. simpl in Hl'.
    split; [congruence | exact Hw'].
Qed.

(** What one pass adds to the trace: the delivery of its entry, if any. *)
Lemma enum_body_trace (entw : WStr.wchars) (retval : Z) (s : state U) :
  exists evs,
    trace (snd (enum_body U os cb dirname entw retval s)) = trace s ++ evs /\
    delivered evs = deliverable os dirname entw /\
    found evs = [].
Proof.
  rewrite enum_body_eq. unfold deliverable.
  destruct (names_dot entw).
  - exists []. rewrite app_nil_r. auto.
  - destruct (wide_to_utf8 os (WStr.wcs entw)) as [name |].
    + eexists [_]. simpl. auto.
    + exists []. rewrite app_nil_r. auto.
Qed.

(** How one pass entered with [retval = 1] can end. *)
Lemma enum_body_outcome (entw : WStr.wchars) (s s1 : state U) (r : Z) :
  no_stop (trace s) ->
  enum_body U os cb dirname entw 1 s = (r, s1) ->
  (r = 1 /\ no_stop (trace s1)) \/
  (r = -1 /\ no_stop (trace s1) /\
   names_dot entw = false /\ wide_to_utf8 os (WStr.wcs entw) = None) \/
  (r <> 1 /\ exists n, trace s1 = trace s ++ [EvCallback dirname n r]).
Proof.
  intros Hs. rewrite enum_body_eq.
  destruct (names_dot entw) eqn:Hdot.
  - intros E. inversion E; subst. left. auto.
  - destruct (wide_to_utf8 os (WStr.wcs entw)) as [name |] eqn:Hconv.
    + simpl. intros E. inversion E; subst. clear E.
      destruct (Z.eq_dec (fst (cb (userdata s) dirname name)) 1) as [E1 | E1].
      * left. split; [exact E1 |]. simpl.
        apply no_stop_snoc; [exact Hs |]. rewrite E1. reflexivity.
      * right. right. split; [exact E1 |]. exists name. reflexivity.
    + intros E. inversion E; subst. right. left. auto.
Qed.

(** How the [do] loop can end: the search ran dry with every answer 1; or
    a name did not convert; or the callback's last answer, the result, was
    not 1. *)
Lemma enum_loop_outcome (entw : WStr.wchars) (rest : list WStr.wchars)
    (s : state U) :
  no_stop (trace s) ->
  let out := enum_loop U os cb dirname entw rest 1 s in
  (fst out = 1 /\ no_stop (trace (snd out))) \/
  (fst out = -1 /\ no_stop (trace (snd out)) /\
   Exists (fun fn => names_dot fn = false /\
                     wide_to_utf8 os (WStr.wcs fn) = None) (entw :: rest)) \/
  (fst out <> 1 /\
   exists tr0 n,
     trace (snd out) = tr0 ++ [EvCallback dirname n (fst out)] /\
     no_stop tr0).
Proof.
  intros Hs.
  refine (enum_loop_ind
            (fun entw rest retval s out =>
               retval = 1 -> no_stop (trace s) ->
               (fst out = 1 /\ no_stop (trace (snd out))) \/
               (fst out = -1 /\ no_stop (trace (snd out)) /\
                Exists (fun fn => names_dot fn = false /\
                                  wide_to_utf8 os (WStr.wcs fn) = None)
                       (entw :: rest)) \/
               (fst out <> 1 /\
                exists tr0 n,
                  trace (snd out) = tr0 ++ [EvCallback dirname n (fst out)] /\
                  no_stop tr0))
            _ _ _ entw rest 1 s eq_refl Hs).
  - intros e rs retval s0 r s1 Hbody Hr -> Hs0.
    destruct (enum_body_outcome e s0 s1 r Hs0 Hbody)
      as [[E _] | [(E & Hn & Hu) | (_ & n & Htr)]].
    + contradiction.
    + right. left. simpl. repeat split; auto.
    + right. right. simpl. split; [exact Hr |]. exists (trace s0), n. auto.
  - intros e retval s0 s1 Hbody -> Hs0.
    destruct (enum_body_outcome e s0 s1 1 Hs0 Hbody)
      as [[_ Hn] | [(E & _) | (E & _)]].
    + left. simpl. split; [reflexivity |].
      apply no_stop_snoc; [exact Hn | reflexivity].
    + discriminate.
    + contradiction.
  - intros e e' rs' retval s0 s1 out Hbody IH -> Hs0.
    destruct (enum_body_outcome e s0 s1 1 Hs0 Hbody)
      as [[_ Hn] | [(E & _) | (E & _)]];
      [| discriminate | contradiction].
    assert (Hn' : no_stop (trace (with_event s1 (EvFindNext (Some e')))))
      by (simpl; apply no_stop_snoc; [exact Hn | reflexivity]).
    destruct (IH eq_refl Hn') as [H | [(E & Hno & Hex) | H]].
    + left. exact H.
    + right. left. repeat split; auto.
    + right. right. exact H.
Qed.

(** The deliveries of the [do] loop are those of the entries it fetched,
    in order. *)
Lemma enum_loop_delivered (entw : WStr.wchars) (rest : list WStr.wchars)
    (retval : Z) (s : state U) :
  exists evs,
    trace (snd (enum_loop U os cb dirname entw rest retval s))
    = trace s ++ evs /\
    delivered evs = flat_map (deliverable os dirname) (entw :: found evs).
Proof.
  apply (enum_loop_ind
           (fun entw _ _ s out =>
              exists evs,
                trace (snd out) = trace s ++ evs /\
                delivered evs
                = flat_map (deliverable os dirname) (entw :: found evs))).
  - intros e rs rv s0 r s1 Hbody _.
    destruct (enum_body_trace e rv s0) as (evs & Htr & Hd & Hf).
    rewrite Hbody in Htr. exists evs. simpl. rewrite Hf, Hd. simpl.
    rewrite app_nil_r. auto.
  - intros e rv s0 s1 Hbody.
    destruct (enum_body_trace e rv s0) as (evs & Htr & Hd & Hf).
    rewrite Hbody in Htr. simpl in Htr.
    exists (evs ++ [EvFindNext None]). simpl.
    rewrite Htr, app_assoc, delivered_app, found_app, Hd, Hf. simpl.
    rewrite !app_nil_r. auto.
  - intros e e' rs' rv s0 s1 out Hbody (evs' & Htr' & Hd').
    destruct (enum_body_trace e rv s0) as (evs & Htr & Hd & Hf).
    rewrite Hbody in Htr. simpl in Htr, Htr'.
    exists (evs ++ EvFindNext (Some e') :: evs').
    rewrite Htr', Htr, <- !app_assoc. split; [reflexivity |].
    rewrite delivered_app, found_app, Hd, Hf. simpl.
    change (delivered (EvFindNext (Some e') :: evs')) with (delivered evs').
    rewrite Hd'. reflexivity.
Qed.

(** The entries the [do] loop fetches are an initial stretch of those
    the search holds, and all of them when the loop ends with 1. *)
Lemma enum_loop_found (entw : WStr.wchars) (rest : list WStr.wchars)
    (retval : Z) (s : state U) :
  exists evs k,
    trace (snd (enum_loop U os cb dirname entw rest retval s))
    = trace s ++ evs /\
    found evs = firstn k rest /\
    (fst (enum_loop U os cb dirname entw rest retval s) = 1 ->
     found evs = rest).
Proof.
  apply (enum_loop_ind
           (fun _ rest _ s out =>
              exists evs k,
                trace (snd out) = trace s ++ evs /\
                found evs = firstn k rest /\
                (fst out = 1 -> found evs = rest))).
  - intros e rs rv s0 r s1 Hbody Hr.
    destruct (enum_body_trace e rv s0) as (evs & Htr & _ & Hf).
    rewrite Hbody in Htr. exists evs, 0%nat. simpl.
    repeat split; auto. intros E. contradiction.
  - intros e rv s0 s1 Hbody.
    destruct (enum_body_trace e rv s0) as (evs & Htr & _ & Hf).
    rewrite Hbody in Htr. simpl in Htr.
    exists (evs ++ [EvFindNext None]), 0%nat. simpl.
    rewrite Htr, <- app_assoc, found_app, Hf. auto.
  - intros e e' rs' rv s0 s1 out Hbody (evs' & k & Htr' & Hf' & Hall).
    destruct (enum_body_trace e rv s0) as (evs & Htr & _ & Hf).
    rewrite Hbody in Htr. simpl in Htr, Htr'.
    exists (evs ++ EvFindNext (Some e') :: evs'), (S k).
    split; [rewrite Htr', Htr, <- !app_assoc; reflexivity |].
    rewrite found_app, Hf. simpl. split.
    + rewrite Hf'. reflexivity.
    + intros E. rewrite (Hall E). reflexivity.
Qed.

(** The [do] loop ends with 1 only if every entry of the search, "." and
    ".." apart, had a name that converts. *)
Lemma enum_loop_one_converts (entw : WStr.wchars) (rest : list WStr.wchars)
    (retval : Z) (s : state U) :
  fst (enum_loop U os cb dirname entw rest retval s) = 1 ->
  Forall (fun fn => names_dot fn = false ->
                    wide_to_utf8 os (WStr.wcs fn) <> None) (entw :: rest).
Proof.
  assert (Hbody : forall e rv s0 s1,
             enum_body U os cb dirname e rv s0 = (1, s1) ->
             names_dot e = false ->
             wide_to_utf8 os (WStr.wcs e) <> None).
  { intros e rv s0 s1 Hb Hdot. rewrite enum_body_eq, Hdot in Hb.
    destruct (wide_to_utf8 os (WStr.wcs e)); [discriminate |].
    inversion Hb. }
  apply (enum_loop_ind
           (fun entw rest _ _ out =>
              fst out = 1 ->
              Forall (fun fn => names_dot fn = false ->
                                wide_to_utf8 os (WStr.wcs fn) <> None)
                     (entw :: rest))).
  - intros e rs rv s0 r s1 _ Hr E. simpl in E. contradiction.
  - intros e rv s0 s1 Hb _.
    constructor; [exact (Hbody e rv s0 s1 Hb) | constructor].
  - intros e e' rs' rv s0 s1 out Hb IH E.
    constructor; [exact (Hbody e rv s0 s1 Hb) | exact (IH E)].
Qed.

(** *** The loop over drive letters *)

Lemma drive_loop_S (fuel : nat) (drives i retval : Z) (s : state U) :
  drive_loop U cb (S fuel) dirname drives i retval s =
    if (retval =? 1) && (i <=? char_Z) then
      let (retval', s1) :=
        if drive_present drives i
        then call_cb U cb dirname (drive_name i) s
        else (retval, s) in
      drive_loop U cb fuel dirname drives (i + 1) retval' s1
    else (retval, s).
Proof.
  simpl. destruct ((retval =? 1) && (i <=? char_Z)); [| reflexivity].
  unfold bind. destruct (drive_present drives i); reflexivity.
Qed.

Lemma drive_loop_stopped (fuel : nat) (drives i retval : Z) (s : state U) :
  retval <> 1 ->
  drive_loop U cb fuel dirname drives i retval s = (retval, s).
Proof.
  intros Hr. destruct fuel as [| fuel]; [reflexivity |].
  rewrite drive_loop_S. apply Z.eqb_neq in Hr. rewrite Hr. reflexivity.
Qed.

(** Once the letters are used up, more fuel changes nothing: the loop
    leaves by its condition. *)
Lemma drive_loop_more_fuel (fuel : nat) (drives i retval : Z) (s : state U) :
  char_Z + 1 <= i + Z.of_nat fuel ->
  drive_loop U cb (S fuel) dirname drives i retval s
  = drive_loop U cb fuel dirname drives i retval s.
Proof.
  revert i retval s. induction fuel as [| fuel IH]; intros i retval s Hi.
  - rewrite drive_loop_S.
    replace (i <=? char_Z) with false
      by (symmetry; apply Z.leb_gt; unfold char_Z in *; lia).
    rewrite andb_false_r. reflexivity.
  - rewrite (drive_loop_S (S fuel)), (drive_loop_S fuel).
    destruct ((retval =? 1) && (i <=? char_Z)); [| reflexivity].
    destruct (if drive_present drives i
              then call_cb U cb dirname (drive_name i) s
              else (retval, s)) as [r s1].
    apply IH. unfold char_Z in *. lia.
Qed.

Lemma drive_loop_fuel (extra : nat) (drives : Z) (s : state U) :
  drive_loop U cb (extra + 26) dirname drives char_A 1 s
  = drive_loop U cb 26 dirname drives char_A 1 s.
Proof.
  induction extra as [| extra IH]; [reflexivity |].
  simpl Nat.add. rewrite drive_loop_more_fuel; [exact IH |].
  unfold char_Z, char_A. lia.
Qed.

(** The loop over the letters from [i] to 'Z' is the iteration protocol
    run on the names of the drives present among them. *)
Lemma drive_loop_deliver (fuel : nat) (drives i : Z) (s : state U) :
  char_A <= i ->
  i + Z.of_nat fuel = char_Z + 1 ->
  drive_loop U cb fuel dirname drives i 1 s
  = deliver_all U cb dirname (present_names drives (upto i fuel)) s.
Proof.
  revert i s. induction fuel as [| fuel IH]; intros i s Hlo Hhi;
    [reflexivity |].
  rewrite drive_loop_S.
  unfold char_Z, char_A in Hlo, Hhi.
  replace (i <=? char_Z) with true
    by (symmetry; apply Z.leb_le; unfold char_Z; lia).
  simpl andb. rewrite drive_present_testbit by (unfold char_A; lia).
  unfold present_names. simpl upto. simpl filter.
  destruct (Z.testbit drives (i - char_A)).
  - simpl map. simpl deliver_all. unfold bind.
    destruct (call_cb U cb dirname (drive_name i) s) as [r s1].
    destruct (Z.eqb_spec r 1) as [-> | Hr].
    + apply IH; unfold char_Z, char_A; lia.
    + apply drive_loop_stopped. exact Hr.
  - apply IH; unfold char_Z, char_A; lia.
Qed.

(** The iteration protocol on [names]: the invocations are made on an
    initial stretch of [names], in order; all but the last answer 1; and
    either all names were delivered and the result is 1, or the last
    answer was not 1 and is the result. *)
Lemma deliver_all_run (names : list string) (s : state U) :
  let out := deliver_all U cb dirname names s in
  exists cs : list (string * Z),
    trace (snd out) = trace s ++ map (call_event dirname) cs /\
    live (snd out) = live s /\
    map fst cs = firstn (List.length cs) names /\
    ((fst out = 1 /\ Forall (fun c => snd c = 1) cs /\
      List.length cs = List.length names) \/
     (fst out <> 1 /\
      exists cs0 n, cs = cs0 ++ [(n, fst out)] /\
                    Forall (fun c => snd c = 1) cs0)).
Proof.
  revert s. induction names as [| name names IH]; intros s.
  - exists []. simpl. rewrite app_nil_r. repeat split; auto.
  - simpl deliver_all. unfold bind, call_cb.
    destruct (cb (userdata s) dirname name) as [r u] eqn:Hcb.
    destruct (Z.eqb_spec r 1) as [-> | Hr].
    + specialize (IH (mkState U u (next_id s) (live s)
                        (trace s ++ [EvCallback dirname name 1]))).
      destruct IH as (cs & Htr & Hlive & Hnames & Hend).
      exists ((name, 1) :: cs). simpl in *.
      rewrite Htr, <- app_assoc. repeat split; auto.
      * rewrite Hnames. reflexivity.
      * destruct Hend as [(E & Hall & Hlen) | (E & cs0 & n & -> & Hall)].
        -- left. repeat split; auto.
        -- right. split; [exact E |].
           exists ((name, 1) :: cs0), n. split; [reflexivity |].
           constructor; auto.
    + exists [(name, r)]. simpl. repeat split; auto.
      right. split; [exact Hr |]. exists [], name. auto.
Qed.

(** *** The two branches of SDL_SYS_FSenumerate *)

(** On the empty path the call is the iteration protocol run on the names
    of the drives present. *)
Lemma enumerate_root (s : state U) :
  SDL_SYS_FSenumerate U os cb EmptyString dirname s
  = deliver_all U cb dirname (drive_names (logical_drives os))
                (with_event s EvGetLogicalDrives).
Proof.
  change (SDL_SYS_FSenumerate U os cb EmptyString dirname s)
    with (drive_loop U cb 26 dirname (logical_drives os) char_A 1
            (with_event s EvGetLogicalDrives)).
  rewrite drive_loop_deliver by (unfold char_A, char_Z; lia).
  unfold drive_names. rewrite letters_upto. reflexivity.
Qed.

(** On any other path, either something fails before the loop, and the
    call returns [-1] having called neither the callback nor the search
    for a next entry; or the search opens and the call is the [do] loop
    followed by [FindClose]. *)
Lemma enumerate_dir (fullpath : string) (s : state U) :
  fullpath <> EmptyString ->
  let out := SDL_SYS_FSenumerate U os cb fullpath dirname s in
  let dir := S (S (next_id s)) in
  (fst out = -1 /\
   (malloc_ok os (SDL_strlen fullpath + 3) = false \/
    utf8_to_wide os (fullpath ++ "\*") = None \/
    exists wpat, utf8_to_wide os (fullpath ++ "\*") = Some wpat /\
                 find_first os wpat = None) /\
   (well_formed s -> live (snd out) = live s) /\
   exists evs,
     trace (snd out) = trace s ++ evs /\
     calls evs = [] /\ found evs = [] /\ forallb is_quiet evs = true) \/
  (exists wpat entw rest held,
     malloc_ok os (SDL_strlen fullpath + 3) = true /\
     utf8_to_wide os (fullpath ++ "\*") = Some wpat /\
     find_first os wpat = Some (entw, rest) /\
     (well_formed s -> held = live s ++ [SearchHandle dir]) /\
     let s0 := mkState U (userdata s) (S dir) held
                       (trace s ++ [EvFindFirst wpat (Some entw)]) in
     let run := enum_loop U os cb dirname entw rest 1 s0 in
     out = (fst run, snd (FindClose U (mkHANDLE dir rest) (snd run)))).
Proof.
  intros Hne. destruct fullpath as [| c path]; [contradiction |].
  cbv zeta. unfold SDL_SYS_FSenumerate, SDL_malloc.
  destruct (malloc_ok os (SDL_strlen (String c path) + 3)) eqn:Hmalloc.
  2:{ left. unfold bind, ret. cbn [fst snd].
      split; [reflexivity |]. split; [left; reflexivity |].
      split; [reflexivity |].
      exists []. rewrite app_nil_r. auto. }
  rewrite snprintf_pattern.
  unfold WIN_UTF8ToString.
  destruct (utf8_to_wide os (String c path ++ "\*")) as [wpat |] eqn:Hconv.
  2:{ left. unfold bind, ret, acquire, SDL_free, release.
      cbn [fst snd live trace next_id].
      split; [reflexivity |]. split; [right; left; reflexivity |].
      split.
      - intros Hwf. apply (release_acquired _ (next_id s)); auto.
      - exists []. rewrite app_nil_r. auto. }
  unfold FindFirstFileExW.
  destruct (find_first os wpat) as [[entw rest] |] eqn:Hfind.
  - right. exists wpat, entw, rest.
    exists (filter (fun x => negb (resource_eqb x (Buffer (S (next_id s)))))
              (filter (fun x => negb (resource_eqb x (Buffer (next_id s))))
                      ((live s ++ [Buffer (next_id s)])
                       ++ [Buffer (S (next_id s))])
               ++ [SearchHandle (S (S (next_id s)))])).
    split; [reflexivity |]. split; [reflexivity |].
    split; [exact Hfind |].
    split.
    + intros Hwf.
      rewrite (release_first (live s) (next_id s)) by (simpl; auto).
      rewrite filter_app.
      rewrite (release_acquired (live s) (next_id s)) by (simpl; auto).
      reflexivity.
    + unfold bind, ret, acquire, emit, SDL_free, release.
      cbn [fst snd live trace next_id userdata]. rewrite Hfind.
      cbn [fst snd live trace next_id userdata pending].
      match goal with
      | |- context [enum_loop U os cb dirname entw rest 1 ?st] =>
          destruct (enum_loop U os cb dirname entw rest 1 st) as [r s']
      end.
      reflexivity.
  - left.
    unfold WIN_SetError, SDL_free. unfold bind, ret, acquire, emit, release.
    cbn [fst snd live trace next_id userdata]. rewrite Hfind.
    cbn [fst snd live trace next_id userdata].
    split; [reflexivity |].
    split; [right; right; exists wpat; split; [reflexivity | exact Hfind] |].
    split.
    + intros Hwf.
      rewrite (release_first (live s) (next_id s)) by (simpl; auto).
      apply (release_acquired _ (next_id s)); simpl; auto.
    + exists [EvFindFirst wpat None;
              EvSetError "Failed to enumerate directory"].
      split; [rewrite <- app_assoc; reflexivity | repeat split].
Qed.

End LoopFacts.

(** ** Enumeration *)

Section EnumerateFacts.

Variable U : Type.
Variable os : Win32.
Variable cb : U -> string -> string -> Z * U.

Import ResourceFacts TraceFacts NameFacts.

Lemma no_stop_calls (dirname : string) (cs : list (string * Z)) :
  Forall (fun c => snd c = 1) cs -> no_stop (map (call_event dirname) cs).
Proof.
  induction 1 as [| [n v] cs Hv _ IH]; simpl; constructor; auto.
  simpl in Hv. subst v. reflexivity.
Qed.

Lemma quiet_no_calls (evs : list event) :
  calls evs = [] -> forall pre d n v post,
  evs <> pre ++ EvCallback d n v :: post.
Proof.
  intros Hc pre d n v post E. subst evs.
  rewrite calls_app in Hc. simpl in Hc.
  apply app_eq_nil in Hc. destruct Hc as [_ Hc]. discriminate.
Qed.

(** X17: whatever the path, and however the enumeration ends, the call
    holds on return what it held on entry: every buffer and the search
    handle have been released. *)
Lemma SDL_SYS_FSenumerate_releases
    (fullpath dirname : string) (s : state U) :
  well_formed s ->
  live (snd (SDL_SYS_FSenumerate U os cb fullpath dirname s)) = live s.
Proof.
  intros Hwf.
  destruct (string_dec fullpath EmptyString) as [-> | Hne].
  - rewrite enumerate_root.
    destruct (deliver_all_run U cb dirname
                (drive_names (logical_drives os))
                (with_event s EvGetLogicalDrives))
      as (cs & _ & Hlive & _).
    exact Hlive.
  - destruct (enumerate_dir U os cb dirname fullpath s Hne)
      as [(_ & _ & Hlive & _)
         | (wpat & entw & rest & held & _ & _ & _ & Hheld & Hout)].
    + exact (Hlive Hwf).
    + cbv zeta in Hout. rewrite Hout. clear Hout.
      specialize (Hheld Hwf). subst held.
      set (s0 := mkState U _ _ _ _).
      assert (Hwf0 : well_formed s0).
      { unfold well_formed, s0. simpl. apply Forall_app. split.
        - apply (older_weaken _ (next_id s)); auto.
        - constructor; [simpl; lia | constructor]. }
      destruct (enum_loop_live U os cb dirname entw rest 1 s0 Hwf0)
        as [Hl _].
      unfold FindClose, bind, emit, release. simpl. rewrite Hl.
      unfold s0. simpl.
      apply (release_acquired _ (next_id s)); simpl; auto.
Qed.

(** C3: once an invocation of the callback answers something other than
    1, that answer is what the call returns, and nothing that follows in
    the trace is a callback invocation or a next-entry call.  In
    particular, with five entries found and a callback answering 1, 1 and
    then 0, the callback is invoked exactly three times and the call
    returns 0. *)
Theorem SDL_SYS_FSenumerate_stops :
  (forall (fullpath dirname : string) (u : U)
          (pre post : list event) (d n : string) (v : Z),
     let out := SDL_SYS_FSenumerate U os cb fullpath dirname (init u) in
     trace (snd out) = pre ++ EvCallback d n v :: post ->
     v <> 1 ->
     fst out = v /\ forallb is_quiet post = true) /\
  (forall (fullpath dirname : string) (u u1 u2 u3 : U)
          (wpat e1 e2 e3 e4 e5 : WStr.wchars) (n1 n2 n3 : string),
     fullpath <> EmptyString ->
     malloc_ok os (SDL_strlen fullpath + 3) = true ->
     utf8_to_wide os (fullpath ++ "\*") = Some wpat ->
     find_first os wpat = Some (e1, [e2; e3; e4; e5]) ->
     names_dot e1 = false -> wide_to_utf8 os (WStr.wcs e1) = Some n1 ->
     names_dot e2 = false -> wide_to_utf8 os (WStr.wcs e2) = Some n2 ->
     names_dot e3 = false -> wide_to_utf8 os (WStr.wcs e3) = Some n3 ->
     cb u dirname n1 = (1, u1) ->
     cb u1 dirname n2 = (1, u2) ->
     cb u2 dirname n3 = (0, u3) ->
     let out := SDL_SYS_FSenumerate U os cb fullpath dirname (init u) in
     fst out = 0 /\
     calls (trace (snd out))
     = [(dirname, n1, 1); (dirname, n2, 1); (dirname, n3, 0)] /\
     List.length (calls (trace (snd out))) = 3%nat /\
     found (trace (snd out)) = [e1; e2; e3]).
Proof.
  split.
  - intros fullpath dirname u pre post d n v out Htr Hv. subst out.
    assert (Hy : is_stop (EvCallback d n v) <> None)
      by (rewrite (is_stop_callback d n v Hv); discriminate).
    destruct (string_dec fullpath EmptyString) as [-> | Hne].
    + rewrite enumerate_root in Htr |- *.
      pose proof (deliver_all_run U cb dirname
                    (drive_names (logical_drives os))
                    (with_event (init u) EvGetLogicalDrives)) as Hrun.
      cbv zeta in Hrun.
      destruct (deliver_all U cb dirname (drive_names (logical_drives os))
                  (with_event (init u) EvGetLogicalDrives)) as [r s'].
      destruct Hrun as (cs & Hcs & _ & _ & Hend).
      simpl in Htr, Hcs, Hend |- *. rewrite Hcs in Htr.
      destruct Hend as [(_ & Hall & _) | (_ & cs0 & n' & -> & Hall)].
      * exfalso. apply Hv. apply (no_stop_split pre post d n v).
        rewrite <- Htr.
        apply (no_stop_app [EvGetLogicalDrives]). split.
        -- constructor; [reflexivity | constructor].
        -- apply no_stop_calls. exact Hall.
      * rewrite map_app in Htr.
        destruct (stop_unique
                    (EvGetLogicalDrives :: map (call_event dirname) cs0) []
                    pre post (call_event dirname (n', r))
                    (EvCallback d n v) Htr) as (_ & E & <-).
        -- constructor; [reflexivity |]. apply no_stop_calls. exact Hall.
        -- constructor.
        -- exact Hy.
        -- inversion E; subst. split; reflexivity.
    + destruct (enumerate_dir U os cb dirname fullpath (init u) Hne)
        as [(_ & _ & _ & evs & Hevs & Hcalls & _)
           | (wpat & entw & rest & held & _ & _ & _ & _ & Hout)].
      * exfalso. rewrite Hevs in Htr. simpl in Htr.
        exact (quiet_no_calls evs Hcalls pre d n v post Htr).
      * cbv zeta in Hout. rewrite Hout in Htr |- *. clear Hout.
        set (s0 := mkState U _ _ _ _) in *.
        assert (Hs0 : no_stop (trace s0))
          by (unfold s0; simpl; constructor; [reflexivity | constructor]).
        pose proof (enum_loop_outcome U os cb dirname entw rest s0 Hs0)
          as Hrun.
        cbv zeta in Hrun.
        destruct (enum_loop U os cb dirname entw rest 1 s0) as [r s'].
        unfold FindClose, bind, emit, release in Htr.
        simpl in Htr, Hrun |- *.
        destruct Hrun
          as [(_ & Hno) | [(_ & Hno & _) | (_ & tr0 & n' & Htr0 & Hno)]].
        -- exfalso. apply Hv. apply (no_stop_split pre post d n v).
           rewrite <- Htr. apply no_stop_snoc; [exact Hno | reflexivity].
        -- exfalso. apply Hv. apply (no_stop_split pre post d n v).
           rewrite <- Htr. apply no_stop_snoc; [exact Hno | reflexivity].
        -- rewrite Htr0, <- app_assoc in Htr.
           destruct (stop_unique tr0 [EvFindClose] pre post
                       (EvCallback dirname n' r) (EvCallback d n v) Htr)
             as (_ & E & <-).
           ++ exact Hno.
           ++ constructor; [reflexivity | constructor].
           ++ exact Hy.
           ++ inversion E; subst. split; reflexivity.
  - intros fullpath dirname u u1 u2 u3 wpat e1 e2 e3 e4 e5 n1 n2 n3
           Hne Hmalloc Hconv Hfind Hd1 Hc1 Hd2 Hc2 Hd3 Hc3 Hcb1 Hcb2 Hcb3 out.
    subst out.
    destruct (enumerate_dir U os cb dirname fullpath (init u) Hne)
      as [(_ & [Hfail | [Hfail | (w & Hw & Hfail)]] & _)
         | (wpat' & entw & rest & held & _ & Hconv' & Hfind' & _ & Hout)];
      try congruence.
    assert (wpat' = wpat) by congruence. subst wpat'.
    assert (E : (entw, rest) = (e1, [e2; e3; e4; e5])) by congruence.
    inversion E; subst entw rest. clear E.
    cbv zeta in Hout. rewrite Hout. clear Hout.
    rewrite enum_loop_unfold, enum_body_eq, Hd1, Hc1. simpl userdata.
    rewrite Hcb1. cbv zeta. cbn [fst snd Z.eqb Pos.eqb].
    rewrite enum_loop_unfold, enum_body_eq, Hd2, Hc2. simpl userdata.
    rewrite Hcb2. cbv zeta. cbn [fst snd Z.eqb Pos.eqb].
    rewrite enum_loop_unfold, enum_body_eq, Hd3, Hc3. simpl userdata.
    rewrite Hcb3. cbv zeta. cbn [fst snd Z.eqb Pos.eqb].
    unfold FindClose, bind, emit, release, with_event. simpl.
    repeat split.
Qed.

(** C6, amended: on the empty path the call queries the drive bitmask and
    then only invokes the callback, on the names "X:" of the drives
    present, in ascending order and each at most once, up to and including
    the first invocation that answers something other than 1; when every
    answer is 1, each drive present is delivered.  No search is opened. *)
Theorem SDL_SYS_FSenumerate_root_drives (dirname : string) (u : U) :
  let out := SDL_SYS_FSenumerate U os cb EmptyString dirname (init u) in
  exists cs : list (string * Z),
    trace (snd out) = EvGetLogicalDrives :: map (call_event dirname) cs /\
    forallb (fun e => negb (is_search e)) (trace (snd out)) = true /\
    map fst cs
    = firstn (List.length cs) (drive_names (logical_drives os)) /\
    ((fst out = 1 /\ Forall (fun c => snd c = 1) cs /\
      map fst cs = drive_names (logical_drives os)) \/
     (fst out <> 1 /\
      exists cs0 n, cs = cs0 ++ [(n, fst out)] /\
                    Forall (fun c => snd c = 1) cs0)).
Proof.
  cbv zeta. rewrite enumerate_root.
  pose proof (deliver_all_run U cb dirname
                (drive_names (logical_drives os))
                (with_event (init u) EvGetLogicalDrives)) as Hrun.
  cbv zeta in Hrun.
  destruct (deliver_all U cb dirname (drive_names (logical_drives os))
              (with_event (init u) EvGetLogicalDrives)) as [r s'].
  destruct Hrun as (cs & Hcs & _ & Hnames & Hend).
  simpl in Hcs, Hend |- *.
  exists cs. split; [exact Hcs |]. split.
  - rewrite Hcs. simpl. clear. induction cs as [| c cs IH]; auto.
  - split; [exact Hnames |].
    destruct Hend as [(E & Hall & Hlen) | Hstop].
    + left. repeat split; auto.
      rewrite Hnames, Hlen. apply firstn_all.
    + right. exact Hstop.
Qed.

(** What the callback is handed, read off the entries the search handed
    out. *)
Lemma enumerate_delivers_found
    (fullpath dirname : string) (u : U) :
  fullpath <> EmptyString ->
  let tr :=
    trace (snd (SDL_SYS_FSenumerate U os cb fullpath dirname (init u))) in
  delivered tr = flat_map (deliverable os dirname) (found tr) /\
  (forall d n,
     In (d, n) (delivered tr) ->
     d = dirname /\
     exists fn, In fn (found tr) /\
                WStr.wcs fn <> [WStr.dot] /\
                WStr.wcs fn <> [WStr.dot; WStr.dot] /\
                wide_to_utf8 os (WStr.wcs fn) = Some n) /\
  (forall fn n,
     In fn (found tr) ->
     WStr.wcs fn <> [WStr.dot] ->
     WStr.wcs fn <> [WStr.dot; WStr.dot] ->
     wide_to_utf8 os (WStr.wcs fn) = Some n ->
     In (dirname, n) (delivered tr)).
Proof.
  intros Hne tr.
  assert (Heq : delivered tr = flat_map (deliverable os dirname) (found tr)).
  { subst tr.
    destruct (enumerate_dir U os cb dirname fullpath (init u) Hne)
      as [(_ & _ & _ & evs & Hevs & Hcalls & Hfound & _)
         | (wpat & entw & rest & held & _ & _ & _ & _ & Hout)].
    - rewrite Hevs. simpl. unfold delivered. rewrite Hcalls, Hfound.
      reflexivity.
    - cbv zeta in Hout. rewrite Hout. clear Hout.
      set (s0 := mkState U _ _ _ _).
      destruct (enum_loop_delivered U os cb dirname entw rest 1 s0)
        as (evs & Hevs & Hd).
      destruct (enum_loop U os cb dirname entw rest 1 s0) as [r s'].
      unfold FindClose, bind, emit, release. simpl in Hevs |- *.
      rewrite Hevs. unfold s0. simpl.
      change (delivered (EvFindFirst wpat (Some entw) :: evs ++ [EvFindClose]))
        with (delivered (evs ++ [EvFindClose])).
      rewrite delivered_app, found_app. simpl.
      rewrite !app_nil_r. exact Hd. }
  split; [exact Heq |]. split.
  - intros d n Hin. rewrite Heq in Hin.
    apply in_flat_map in Hin. destruct Hin as (fn & Hfn & Hin).
    unfold deliverable in Hin.
    destruct (names_dot fn) eqn:Hdot; [contradiction |].
    destruct (wide_to_utf8 os (WStr.wcs fn)) as [name |] eqn:Hconv;
      [| contradiction].
    destruct Hin as [E | []]. inversion E; subst.
    split; [reflexivity |]. exists fn. split; [exact Hfn |].
    assert (Hnot : ~ (WStr.wcs fn = [WStr.dot] \/
                      WStr.wcs fn = [WStr.dot; WStr.dot])).
    { intros H. apply names_dot_iff in H. congruence. }
    repeat split; auto.
  - intros fn n Hfn H1 H2 Hconv. rewrite Heq.
    apply in_flat_map. exists fn. split; [exact Hfn |].
    unfold deliverable.
    destruct (names_dot fn) eqn:Hdot.
    + apply names_dot_iff in Hdot. destruct Hdot; contradiction.
    + rewrite Hconv. left. reflexivity.
Qed.

(** With every answer 1 the call returns 1 or [-1], and 1 when nothing
    fails. *)
Lemma enumerate_all_continue_cases
    (fullpath dirname : string) (u : U) :
  let out := SDL_SYS_FSenumerate U os cb fullpath dirname (init u) in
  no_stop (trace (snd out)) ->
  (fst out = 1 \/ fst out = -1) /\
  (no_failure os fullpath -> fst out = 1).
Proof.
  cbv zeta.
  destruct (string_dec fullpath EmptyString) as [-> | Hne].
  - rewrite enumerate_root.
    pose proof (deliver_all_run U cb dirname
                  (drive_names (logical_drives os))
                  (with_event (init u) EvGetLogicalDrives)) as Hrun.
    cbv zeta in Hrun.
    destruct (deliver_all U cb dirname (drive_names (logical_drives os))
                (with_event (init u) EvGetLogicalDrives)) as [r s'].
    destruct Hrun as (cs & Hcs & _ & _ & Hend).
    simpl in Hcs, Hend |- *. intros Hno.
    destruct Hend as [(E & _) | (Hr & cs0 & n & -> & _)].
    + subst r. split; [left |]; reflexivity.
    + exfalso. apply Hr. rewrite Hcs, map_app in Hno. simpl in Hno.
      apply (no_stop_split
               (EvGetLogicalDrives :: map (call_event dirname) cs0) []
               dirname n r).
      exact Hno.
  - destruct (enumerate_dir U os cb dirname fullpath (init u) Hne)
      as [(Hret & Hcause & _)
         | (wpat & entw & rest & held & Hmalloc & Hconv & Hfind & _ & Hout)].
    + intros _. split; [right; exact Hret |].
      intros Hok. exfalso. destruct fullpath as [| c path];
        [contradiction |].
      destruct Hok as [Hm (w & e & rs & Hc & Hf & _)].
      destruct Hcause as [H | [H | (w' & Hw' & H)]]; congruence.
    + cbv zeta in Hout. rewrite Hout. clear Hout.
      set (s0 := mkState U _ _ _ _).
      assert (Hs0 : no_stop (trace s0))
        by (unfold s0; simpl; constructor; [reflexivity | constructor]).
      pose proof (enum_loop_outcome U os cb dirname entw rest s0 Hs0)
        as Hrun.
      cbv zeta in Hrun.
      destruct (enum_loop U os cb dirname entw rest 1 s0) as [r s'].
      unfold FindClose, bind, emit, release. simpl in Hrun |- *.
      intros Hno.
      destruct Hrun
        as [(E & _) | [(E & _ & Hex) | (Hr & tr0 & n & Htr0 & _)]].
      * subst r. split; [left |]; reflexivity.
      * subst r. split; [right; reflexivity |].
        intros Hok. exfalso. destruct fullpath as [| c path];
          [contradiction |].
        destruct Hok as [_ (w & e & rs & Hc & Hf & Hall)].
        assert (w = wpat) by congruence. subst w.
        assert (E : (e, rs) = (entw, rest)) by congruence.
        inversion E; subst e rs. clear E.
        apply Exists_exists in Hex. destruct Hex as (fn & Hin & Hd & Hn).
        rewrite Forall_forall in Hall. exact (Hall fn Hin Hd Hn).
      * exfalso. apply Hr. rewrite Htr0, <- app_assoc in Hno.
        exact (no_stop_split tr0 [EvFindClose] dirname n r Hno).
Qed.

(** The entries the call fetches from an opened search: an initial
    stretch of the directory's entries that holds the first one, and all
    of them when the call returns 1. *)
Lemma enumerate_found_entries
    (fullpath dirname : string) (s : state U)
    (wpat entw : WStr.wchars) (rest : list WStr.wchars) :
  fullpath <> EmptyString ->
  malloc_ok os (SDL_strlen fullpath + 3) = true ->
  utf8_to_wide os (fullpath ++ "\*") = Some wpat ->
  find_first os wpat = Some (entw, rest) ->
  let out := SDL_SYS_FSenumerate U os cb fullpath dirname s in
  (exists k, found (trace (snd out))
             = found (trace s) ++ entw :: firstn k rest) /\
  (fst out = 1 -> found (trace (snd out)) = found (trace s) ++ entw :: rest) /\
  (fst out = 1 ->
   Forall (fun fn => names_dot fn = false ->
                     wide_to_utf8 os (WStr.wcs fn) <> None) (entw :: rest)).
Proof.
  intros Hne Hmalloc Hconv Hfind.
  destruct (enumerate_dir U os cb dirname fullpath s Hne)
    as [(_ & [H | [H | (w & Hw & H)]] & _)
       | (wpat' & entw' & rest' & held & _ & Hconv' & Hfind' & _ & Hout)];
    try congruence.
  assert (wpat' = wpat) by congruence. subst wpat'.
  assert (E : (entw', rest') = (entw, rest)) by congruence.
  inversion E; subst entw' rest'. clear E.
  cbv zeta in Hout |- *. rewrite Hout. clear Hout.
  set (s0 := mkState U _ _ _ _).
  destruct (enum_loop_found U os cb dirname entw rest 1 s0)
    as (evs & k & Htr & Hf & Hall).
  pose proof (enum_loop_one_converts U os cb dirname entw rest 1 s0)
    as Hconverts.
  destruct (enum_loop U os cb dirname entw rest 1 s0) as [r s'].
  unfold FindClose, bind, emit, release.
  simpl in Htr, Hall, Hconverts |- *.
  assert (Hfound : found (trace s' ++ [EvFindClose])
                   = found (trace s) ++ entw :: found evs).
  { rewrite Htr. unfold s0. simpl. rewrite !found_app. simpl.
    rewrite app_nil_r, <- app_assoc. reflexivity. }
  rewrite Hfound. split; [| split].
  - exists k. rewrite Hf. reflexivity.
  - intros E. rewrite (Hall E). reflexivity.
  - exact Hconverts.
Qed.

(** C7, amended: on a path that is not empty, what the callback is handed
    is, in order, the UTF-8 name of each entry the search handed out whose
    native name is neither "." nor ".." and whose name converts, together
    with the caller's directory name; an entry named "." or ".." is never
    delivered.  The entries handed out are an initial stretch of the
    directory's entries that holds the first, and all of them when the
    call returns 1. *)
Theorem SDL_SYS_FSenumerate_delivers
    (fullpath dirname : string) (u : U) :
  fullpath <> EmptyString ->
  let out := SDL_SYS_FSenumerate U os cb fullpath dirname (init u) in
  let tr := trace (snd out) in
  delivered tr = flat_map (deliverable os dirname) (found tr) /\
  (forall d n,
     In (d, n) (delivered tr) ->
     d = dirname /\
     exists fn, In fn (found tr) /\
                WStr.wcs fn <> [WStr.dot] /\
                WStr.wcs fn <> [WStr.dot; WStr.dot] /\
                wide_to_utf8 os (WStr.wcs fn) = Some n) /\
  (forall fn n,
     In fn (found tr) ->
     WStr.wcs fn <> [WStr.dot] ->
     WStr.wcs fn <> [WStr.dot; WStr.dot] ->
     wide_to_utf8 os (WStr.wcs fn) = Some n ->
     In (dirname, n) (delivered tr)) /\
  (forall wpat entw rest,
     malloc_ok os (SDL_strlen fullpath + 3) = true ->
     utf8_to_wide os (fullpath ++ "\*") = Some wpat ->
     find_first os wpat = Some (entw, rest) ->
     (exists k, found tr = entw :: firstn k rest) /\
     (fst out = 1 ->
      found tr = entw :: rest /\
      delivered tr = flat_map (deliverable os dirname) (entw :: rest))).
Proof.
  intros Hne out tr.
  destruct (enumerate_delivers_found fullpath dirname u Hne)
    as (Heq & Honly & Hevery).
  fold out in Heq, Honly, Hevery. fold tr in Heq, Honly, Hevery.
  split; [exact Heq |]. split; [exact Honly |]. split; [exact Hevery |].
  intros wpat entw rest Hmalloc Hconv Hfind.
  destruct (enumerate_found_entries fullpath dirname (init u) wpat entw rest
              Hne Hmalloc Hconv Hfind) as (Hprefix & Hall & _).
  fold out in Hprefix, Hall. fold tr in Hprefix, Hall.
  simpl in Hprefix, Hall.
  split; [exact Hprefix |].
  intros E. split; [exact (Hall E) |].
  rewrite Heq, (Hall E). reflexivity.
Qed.

(** C9, amended: when no invocation of the callback answers anything but
    1 (none at all included), the call returns 1 exactly when nothing
    fails (the pattern buffer is allocated, the pattern converts, the
    search opens and every entry name converts) and [-1] when something
    does. *)
Theorem SDL_SYS_FSenumerate_all_continue
    (fullpath dirname : string) (u : U) :
  let out := SDL_SYS_FSenumerate U os cb fullpath dirname (init u) in
  no_stop (trace (snd out)) ->
  (fst out = 1 \/ fst out = -1) /\
  (no_failure os fullpath -> fst out = 1) /\
  (fst out = 1 -> no_failure os fullpath) /\
  (~ no_failure os fullpath -> fst out = -1).
Proof.
  cbv zeta. intros Hno.
  destruct (enumerate_all_continue_cases fullpath dirname u Hno)
    as [Hcases Hok].
  assert (Hback : fst (SDL_SYS_FSenumerate U os cb fullpath dirname (init u))
                  = 1 -> no_failure os fullpath).
  { intros E.
    destruct (string_dec fullpath EmptyString) as [-> | Hne]; [exact I |].
    destruct (enumerate_dir U os cb dirname fullpath (init u) Hne)
      as [(Hret & _)
         | (wpat & entw & rest & held & Hmalloc & Hconv & Hfind & _ & _)].
    - rewrite Hret in E. discriminate E.
    - destruct (enumerate_found_entries fullpath dirname (init u)
                  wpat entw rest Hne Hmalloc Hconv Hfind) as (_ & _ & Hall).
      specialize (Hall E).
      destruct fullpath as [| c path]; [contradiction |].
      split; [exact Hmalloc |]. exists wpat, entw, rest.
      split; [exact Hconv |]. split; [exact Hfind |]. exact Hall. }
  split; [exact Hcases |]. split; [exact Hok |]. split; [exact Hback |].
  intros Hfail. destruct Hcases as [E | E]; [| exact E].
  exfalso. exact (Hfail (Hback E)).
Qed.

End EnumerateFacts.

Lemma SDL_SYS_FSenumerate_stops_witness :
  fst (SDL_SYS_FSenumerate nat Samples.sample_os Samples.stop_at_third
         "C:\five" "five" (init 0%nat)) = 0 /\
  List.length
    (calls (trace (snd (SDL_SYS_FSenumerate nat Samples.sample_os
                          Samples.stop_at_third "C:\five" "five"
                          (init 0%nat))))) = 3%nat /\
  fst (SDL_SYS_FSenumerate nat Samples.sample_os Samples.stop_at_third
         "C:\dir" "dir" (init 0%nat)) = 0.
Proof.
  destruct (SDL_SYS_FSenumerate_stops nat Samples.sample_os
              Samples.stop_at_third) as [Hany Hfive].
  assert (Hne : "C:\five"%string <> EmptyString) by discriminate.
  destruct (Hfive "C:\five" "five" 0%nat 1%nat 2%nat 3%nat
              (Samples.wide "C:\five\*")
              (Samples.wide "a") (Samples.wide "b") (Samples.wide "c")
              (Samples.wide "d") (Samples.wide "e") "a" "b" "c"
              Hne eq_refl eq_refl eq_refl eq_refl eq_refl eq_refl eq_refl
              eq_refl eq_refl eq_refl eq_refl eq_refl)%string
    as (Hret & _ & Hlen & _).
  split; [exact Hret |]. split; [exact Hlen |].
  apply (Hany "C:\dir" "dir" 0%nat
              [EvFindFirst (Samples.wide "C:\dir\*") (Some (Samples.wide "."));
               EvFindNext (Some (Samples.wide ".."));
               EvFindNext (Some (Samples.wide "a"));
               EvCallback "dir" "a" 1;
               EvFindNext (Some (Samples.wide "b"));
               EvCallback "dir" "b" 1;
               EvFindNext (Some (Samples.wide "c"))]
              [EvFindClose] "dir" "c" 0)%string;
    [vm_compute; reflexivity | discriminate].
Defined.

(** The claim C6 as worded fails: with drives A: and C: present and a
    callback that stops at once, only "A:" is delivered. *)
Lemma SDL_SYS_FSenumerate_root_not_all :
  ~ (forall (U : Type) (os : Win32) (cb : U -> string -> string -> Z * U)
            (dirname : string) (u : U),
       delivered (trace (snd (SDL_SYS_FSenumerate U os cb EmptyString
                                dirname (init u))))
       = map (fun name => (dirname, name))
             (drive_names (logical_drives os))).
Proof.
  intros H.
  specialize (H nat Samples.sample_os Samples.stop_at_once "root"%string
                0%nat).
  vm_compute in H. discriminate H.
Qed.

Lemma SDL_SYS_FSenumerate_delivers_witness :
  delivered (trace (snd (SDL_SYS_FSenumerate nat Samples.sample_os
                           Samples.count_cb "C:\dir" "dir" (init 0%nat))))
  = [("dir", "a"); ("dir", "b"); ("dir", "c"); ("dir", "d");
     ("dir", "e")]%string /\
  found (trace (snd (SDL_SYS_FSenumerate nat Samples.sample_os
                       Samples.count_cb "C:\dir" "dir" (init 0%nat))))
  = map Samples.wide ["."; ".."; "a"; "b"; "c"; "d"; "e"]%string.
Proof.
  assert (Hne : "C:\dir"%string <> EmptyString) by discriminate.
  destruct (SDL_SYS_FSenumerate_delivers nat Samples.sample_os
              Samples.count_cb "C:\dir" "dir" 0%nat Hne)
    as (_ & _ & _ & Hdir).
  destruct (Hdir (Samples.wide "C:\dir\*") (Samples.wide ".")
              (map Samples.wide [".."; "a"; "b"; "c"; "d"; "e"]%string)
              eq_refl eq_refl eq_refl) as [_ Hall].
  destruct Hall as [Hfound Hdelivered]; [vm_compute; reflexivity |].
  split; [rewrite Hdelivered; vm_compute; reflexivity | exact Hfound].
Defined.

(** The claim C7 as worded fails: the entry "c", whose name does not
    convert, is handed out by the search and is not delivered. *)
Lemma SDL_SYS_FSenumerate_entry_not_delivered :
  ~ (forall (U : Type) (os : Win32) (cb : U -> string -> string -> Z * U)
            (fullpath dirname : string) (u : U) (fn : WStr.wchars),
       fullpath <> EmptyString ->
       In fn (found (trace (snd (SDL_SYS_FSenumerate U os cb fullpath
                                   dirname (init u))))) ->
       WStr.wcs fn <> [WStr.dot] ->
       WStr.wcs fn <> [WStr.dot; WStr.dot] ->
       exists n,
         wide_to_utf8 os (WStr.wcs fn) = Some n /\
         In (dirname, n)
            (delivered (trace (snd (SDL_SYS_FSenumerate U os cb fullpath
                                      dirname (init u)))))).
Proof.
  intros H.
  destruct (H nat MoreSamples.picky_os Samples.count_cb
              "C:\dir"%string "dir"%string 0%nat (Samples.wide "c"))
    as (n & Hconv & _).
  - discriminate.
  - vm_compute. do 4 right. left. reflexivity.
  - vm_compute. discriminate.
  - vm_compute. discriminate.
  - vm_compute in Hconv. discriminate Hconv.
Qed.

(** The claim C9 as worded fails: a search that cannot be opened makes the
    call return [-1] although the callback never answered anything. *)
Lemma SDL_SYS_FSenumerate_all_continue_not_1 :
  ~ (forall (U : Type) (os : Win32) (cb : U -> string -> string -> Z * U)
            (fullpath dirname : string) (u : U),
       no_stop (trace (snd (SDL_SYS_FSenumerate U os cb fullpath dirname
                              (init u)))) ->
       fst (SDL_SYS_FSenumerate U os cb fullpath dirname (init u)) = 1).
Proof.
  intros H.
  specialize (H nat Samples.sample_os Samples.count_cb
                "C:\nodir"%string "nodir"%string 0%nat).
  assert (Hno : no_stop
                  (trace (snd (SDL_SYS_FSenumerate nat Samples.sample_os
                                 Samples.count_cb "C:\nodir" "nodir"
                                 (init 0%nat)))))
    by (vm_compute; repeat constructor).
  specialize (H Hno). vm_compute in H. discriminate H.
Qed.

Lemma SDL_SYS_FSenumerate_all_continue_witness :
  fst (SDL_SYS_FSenumerate nat Samples.sample_os Samples.count_cb
         "C:\dir" "dir" (init 0%nat)) = 1 /\
  fst (SDL_SYS_FSenumerate nat MoreSamples.picky_os Samples.count_cb
         "C:\dir" "dir" (init 0%nat)) = -1.
Proof.
  split.
  - apply (SDL_SYS_FSenumerate_all_continue nat Samples.sample_os
             Samples.count_cb "C:\dir" "dir" 0%nat).
    + vm_compute. repeat constructor.
    + split; [reflexivity |].
      exists (Samples.wide "C:\dir\*"), (Samples.wide "."),
             [Samples.wide ".."; Samples.wide "a"; Samples.wide "b";
              Samples.wide "c"; Samples.wide "d"; Samples.wide "e"].
      repeat split; try reflexivity.
      repeat constructor; discriminate.
  - apply (SDL_SYS_FSenumerate_all_continue nat MoreSamples.picky_os
             Samples.count_cb "C:\dir" "dir" 0%nat).
    + vm_compute. repeat constructor.
    + intros [_ (wpat & entw & rest & Hconv & Hfind & Hall)].
      injection Hconv as <-.
      injection Hfind as <- <-.
      rewrite Forall_forall in Hall.
      apply (Hall (Samples.wide "c")).
      * do 4 right. left. reflexivity.
      * reflexivity.
      * reflexivity.
Defined.

(** * Further properties *)

(** ** Time converter *)

Module TimeMore.
Import Int Time.

(** X1: the converter never returns a negative number: for every native
    timestamp the result lies between 0 and (2^64 - 1) / 10^7. *)
Theorem FileTimeToSDLTime_range (ft : FILETIME) :
  wf_FILETIME ft ->
  0 <= FileTimeToSDLTime ft <= 1844674407370 /\
  is_Sint64 (FileTimeToSDLTime ft).
Proof.
  intros Hwf. rewrite (TimeFacts.FileTimeToSDLTime_ticks ft Hwf).
  assert (H : 0 <= (if ticks ft =? 0 then 0
                   else to_Sint64 (((ticks ft - 11644473600 * 10 ^ 7)
                                    mod 2 ^ 64) / 10 ^ 7))
              <= 1844674407370).
  { destruct (ticks ft =? 0); [lia |].
    destruct (TimeFacts.quotient_narrowing (ticks ft - 11644473600 * 10 ^ 7))
      as [Hq ->].
    pose proof (Z.mod_pos_bound (ticks ft - 11644473600 * 10 ^ 7) (2 ^ 64)
                  ltac:(lia)) as Hm.
    split; [lia |].
    apply Z.lt_succ_r. apply Z.div_lt_upper_bound; lia. }
  split; [exact H |]. unfold is_Sint64. lia.
Qed.

Lemma FileTimeToSDLTime_range_witness :
  0 <= FileTimeToSDLTime (mkFILETIME 4294967295 4294967295) <= 1844674407370.
Proof.
  apply (FileTimeToSDLTime_range (mkFILETIME 4294967295 4294967295)).
  unfold wf_FILETIME, is_DWORD; simpl; lia.
Defined.

(** X2: a timestamp [k] whole seconds and [r] ticks (less than a second)
    after the Unix epoch converts to [k]: the sub-second part is dropped,
    so converting a count of Unix seconds to ticks and back is the
    identity. *)
Theorem FileTimeToSDLTime_whole_seconds (ft : FILETIME) (k r : Z) :
  wf_FILETIME ft ->
  0 <= k ->
  0 <= r < 10 ^ 7 ->
  ticks ft = 11644473600 * 10 ^ 7 + 10 ^ 7 * k + r ->
  FileTimeToSDLTime ft = k.
Proof.
  intros Hwf Hk Hr Ht.
  pose proof (TimeFacts.ticks_range ft Hwf) as Hrange.
  unfold is_Uint64 in Hrange.
  rewrite (TimeFacts.FileTimeToSDLTime_ticks ft Hwf).
  replace (ticks ft =? 0) with false by (symmetry; apply Z.eqb_neq; lia).
  destruct (TimeFacts.quotient_narrowing (ticks ft - 11644473600 * 10 ^ 7))
    as [_ ->].
  rewrite Z.mod_small by lia.
  replace (ticks ft - 11644473600 * 10 ^ 7) with (k * 10 ^ 7 + r) by lia.
  rewrite Z.div_add_l by lia. rewrite Z.div_small by lia. lia.
Qed.

Lemma FileTimeToSDLTime_whole_seconds_witness :
  FileTimeToSDLTime (mkFILETIME 3587643009 27111902) = 1.
Proof.
  apply (FileTimeToSDLTime_whole_seconds
           (mkFILETIME 3587643009 27111902) 1 1).
  - unfold wf_FILETIME, is_DWORD; simpl; lia.
  - lia.
  - lia.
  - reflexivity.
Defined.

(** X3: from the Unix epoch onwards the conversion keeps the order of
    timestamps; a nonzero timestamp before the epoch, though, converts to
    a value at least as large as that of any timestamp after it. *)
Theorem FileTimeToSDLTime_order (ft1 ft2 : FILETIME) :
  wf_FILETIME ft1 ->
  wf_FILETIME ft2 ->
  (11644473600 * 10 ^ 7 <= ticks ft1 <= ticks ft2 ->
   FileTimeToSDLTime ft1 <= FileTimeToSDLTime ft2) /\
  (0 < ticks ft1 < 11644473600 * 10 ^ 7 ->
   11644473600 * 10 ^ 7 <= ticks ft2 ->
   FileTimeToSDLTime ft2 <= FileTimeToSDLTime ft1).
Proof.
  intros Hwf1 Hwf2.
  pose proof (TimeFacts.ticks_range ft1 Hwf1) as Hr1.
  pose proof (TimeFacts.ticks_range ft2 Hwf2) as Hr2.
  unfold is_Uint64 in Hr1, Hr2.
  rewrite (TimeFacts.FileTimeToSDLTime_ticks ft1 Hwf1).
  rewrite (TimeFacts.FileTimeToSDLTime_ticks ft2 Hwf2).
  destruct (TimeFacts.quotient_narrowing (ticks ft1 - 11644473600 * 10 ^ 7))
    as [_ ->].
  destruct (TimeFacts.quotient_narrowing (ticks ft2 - 11644473600 * 10 ^ 7))
    as [_ ->].
  split.
  - intros H.
    replace (ticks ft1 =? 0) with false by (symmetry; apply Z.eqb_neq; lia).
    replace (ticks ft2 =? 0) with false by (symmetry; apply Z.eqb_neq; lia).
    rewrite !Z.mod_small by lia.
    apply Z.div_le_mono; lia.
  - intros H1 H2.
    replace (ticks ft1 =? 0) with false by (symmetry; apply Z.eqb_neq; lia).
    replace (ticks ft2 =? 0) with false by (symmetry; apply Z.eqb_neq; lia).
    rewrite (Z.mod_small (ticks ft2 - _)) by lia.
    replace ((ticks ft1 - 11644473600 * 10 ^ 7) mod 2 ^ 64)
      with (2 ^ 64 + ticks ft1 - 11644473600 * 10 ^ 7)
      by (apply Z.mod_unique with (q := -1); lia).
    apply Z.div_le_mono; lia.
Qed.

Lemma FileTimeToSDLTime_order_witness :
  FileTimeToSDLTime (mkFILETIME 3577643008 27111902)
  <= FileTimeToSDLTime (mkFILETIME 3587643009 27111902) /\
  FileTimeToSDLTime (mkFILETIME 3587643009 27111902)
  <= FileTimeToSDLTime (mkFILETIME 1 0).
Proof.
  assert (Ha : wf_FILETIME (mkFILETIME 3577643008 27111902))
    by (unfold wf_FILETIME, is_DWORD; simpl; lia).
  assert (Hb : wf_FILETIME (mkFILETIME 3587643009 27111902))
    by (unfold wf_FILETIME, is_DWORD; simpl; lia).
  assert (Hc : wf_FILETIME (mkFILETIME 1 0))
    by (unfold wf_FILETIME, is_DWORD; simpl; lia).
  split.
  - apply (FileTimeToSDLTime_order _ _ Ha Hb).
    unfold ticks; simpl; lia.
  - apply (FileTimeToSDLTime_order _ _ Hc Hb).
    + unfold ticks; simpl; lia.
    + unfold ticks; simpl; lia.
Defined.

End TimeMore.

(** ** Remove, create directory, stat *)

Section MutatorMore.

Variable U : Type.
Variable os : Win32.

Import ResourceFacts.

Ltac run :=
  unfold SDL_SYS_FSremove, SDL_SYS_FSrename, SDL_SYS_FSmkdir, SDL_SYS_FSstat,
    WIN_UTF8ToString, GetFileAttributesExW, DeleteFileW, RemoveDirectoryW,
    MoveFileExW, CreateDirectoryW, WIN_SetError, SDL_free,
    bind, ret, emit, acquire, release; simpl.

(** X4: [SDL_SYS_FSmkdir] issues exactly one [CreateDirectoryW] on the
    converted path, returns 0 when it succeeds and reports the error and
    returns [-1] when it fails; a path that does not convert gives [-1]
    with no native call and no error reported; on every path the buffer is
    released and the user data untouched. *)
Theorem SDL_SYS_FSmkdir_spec (fullpath : string) (s : state U) :
  well_formed s ->
  let out := SDL_SYS_FSmkdir U os fullpath s in
  live (snd out) = live s /\
  userdata (snd out) = userdata s /\
  match utf8_to_wide os fullpath with
  | None => fst out = -1 /\ trace (snd out) = trace s
  | Some wpath =>
      trace (snd out) =
        trace s
        ++ EvCreateDirectory wpath
           :: (if create_directory os wpath then []
               else [EvSetError "Couldn't create directory"]) /\
      fst out = if create_directory os wpath then 0 else -1
  end.
Proof.
  intros Hwf. cbv zeta.
  split; [exact (SDL_SYS_FSmkdir_releases U os fullpath s Hwf) |].
  run. destruct (utf8_to_wide os fullpath) as [wpath |]; simpl.
  - destruct (create_directory os wpath); simpl; repeat split.
    rewrite <- app_assoc. reflexivity.
  - repeat split.
Qed.

(** X5: once the attributes are known, [SDL_SYS_FSremove] issues exactly
    one removal call, [RemoveDirectoryW] when the directory bit is set and
    [DeleteFileW] otherwise, never both; it returns 0 when that call
    succeeds, reports the error and returns [-1] when it fails, and has
    released the path buffer either way. *)
Theorem SDL_SYS_FSremove_dispatch
    (fullpath : string) (s : state U) (wpath : WStr.wchars)
    (info : WIN32_FILE_ATTRIBUTE_DATA) :
  well_formed s ->
  utf8_to_wide os fullpath = Some wpath ->
  file_attributes os wpath = inl info ->
  let out := SDL_SYS_FSremove U os fullpath s in
  let isdir := Z.testbit (dwFileAttributes info) 4 in
  let removed :=
    if isdir then remove_directory os wpath else delete_file os wpath in
  live (snd out) = live s /\
  trace (snd out) =
    trace s
    ++ EvGetFileAttributes wpath
       :: (if isdir then EvRemoveDirectory wpath else EvDeleteFile wpath)
       :: (if removed then [] else [EvSetError "Couldn't remove path"]) /\
  fst out = if removed then 0 else -1.
Proof.
  intros Hwf Hconv Hattr. cbv zeta. split.
  - apply SDL_SYS_FSremove_releases_otherwise; [exact Hwf |].
    right. exists wpath, info. auto.
  - pose proof (StatFacts.directory_bit (dwFileAttributes info)) as Hbit.
    destruct (Z.testbit (dwFileAttributes info) 4);
      run; rewrite Hconv; simpl; rewrite Hattr, Hbit; simpl.
    + destruct (remove_directory os wpath); simpl; split;
        rewrite <- ?app_assoc; reflexivity.
    + destruct (delete_file os wpath); simpl; split;
        rewrite <- ?app_assoc; reflexivity.
Qed.

(** X6: a path that does not convert to the native encoding makes remove,
    create-directory and stat return [-1] at once: the state is exactly
    as before (no native call, no error reported, nothing held) and stat
    leaves the caller's [info] as it was. *)
Theorem unconvertible_path_is_local_failure
    (fullpath : string) (info : SDL_PathInfo) (s : state U) :
  utf8_to_wide os fullpath = None ->
  SDL_SYS_FSremove U os fullpath s = (-1, s) /\
  SDL_SYS_FSmkdir U os fullpath s = (-1, s) /\
  SDL_SYS_FSstat U os fullpath info s = ((-1, info), s).
Proof.
  intros Hconv. run. rewrite Hconv. auto.
Qed.

(** X7: [SDL_SYS_FSstat] returns 1 or [-1], never 0; when it returns
    [-1] the caller's [info] is left as it was, and the error is reported
    exactly when the attribute query was made and failed. *)
Theorem SDL_SYS_FSstat_failure_keeps_info
    (fullpath : string) (info : SDL_PathInfo) (s : state U) :
  let out := SDL_SYS_FSstat U os fullpath info s in
  userdata (snd out) = userdata s /\
  ((fst (fst out) = 1 /\
    exists wpath winstat,
      utf8_to_wide os fullpath = Some wpath /\
      file_attributes os wpath = inl winstat /\
      snd (fst out) = fill_info winstat /\
      trace (snd out) = trace s ++ [EvGetFileAttributes wpath]) \/
   (fst (fst out) = -1 /\
    snd (fst out) = info /\
    match utf8_to_wide os fullpath with
    | None => trace (snd out) = trace s
    | Some wpath =>
        trace (snd out) =
          trace s ++ [EvGetFileAttributes wpath; EvSetError "Can't stat"]
    end)).
Proof.
  cbv zeta. run.
  destruct (utf8_to_wide os fullpath) as [wpath |] eqn:Hconv; simpl.
  - destruct (file_attributes os wpath) as [winstat | err] eqn:Hattr; simpl.
    + split; [reflexivity |]. left. split; [reflexivity |].
      exists wpath, winstat. auto.
    + split; [reflexivity |]. right. rewrite <- app_assoc. auto.
  - split; [reflexivity |]. right. auto.
Qed.

End MutatorMore.

Lemma SDL_SYS_FSmkdir_spec_witness :
  fst (SDL_SYS_FSmkdir nat Samples.sample_os "C:\dir\new" (init 0%nat)) = 0.
Proof.
  assert (Hwf : well_formed (init 0%nat)) by constructor.
  destruct (SDL_SYS_FSmkdir_spec nat Samples.sample_os "C:\dir\new"
              (init 0%nat) Hwf) as (_ & _ & H).
  simpl in H. destruct H as [_ H]. exact H.
Defined.

Lemma SDL_SYS_FSremove_dispatch_witness :
  fst (SDL_SYS_FSremove nat Samples.sample_os "C:\dir\a" (init 0%nat)) = 0 /\
  fst (SDL_SYS_FSremove nat Samples.sample_os "C:\dir" (init 0%nat)) = -1.
Proof.
  assert (Hwf : well_formed (init 0%nat)) by constructor.
  split.
  - destruct (SDL_SYS_FSremove_dispatch nat Samples.sample_os "C:\dir\a"
                (init 0%nat) (Samples.wide "C:\dir\a") Samples.file_data
                Hwf eq_refl eq_refl) as (_ & _ & H).
    exact H.
  - destruct (SDL_SYS_FSremove_dispatch nat Samples.sample_os "C:\dir"
                (init 0%nat) (Samples.wide "C:\dir") Samples.dir_data
                Hwf eq_refl eq_refl) as (_ & _ & H).
    exact H.
Defined.

Lemma unconvertible_path_is_local_failure_witness :
  SDL_SYS_FSremove nat MoreSamples.picky_os "C:\dir\?" (init 0%nat)
  = (-1, init 0%nat).
Proof.
  apply (unconvertible_path_is_local_failure nat MoreSamples.picky_os
           "C:\dir\?" (mkPathInfo SDL_PATHTYPE_NONE 0 0 0 0) (init 0%nat)).
  reflexivity.
Defined.

(** ** Enumeration: the search, its failures and complete runs *)

Section EnumerateMore.

Variable U : Type.
Variable os : Win32.
Variable cb : U -> string -> string -> Z * U.
Variable dirname : string.

Import ResourceFacts TraceFacts NameFacts.

(** The [do] loop adds callback invocations and next-entry calls to the
    trace, and nothing else. *)
Lemma enum_loop_events (entw : WStr.wchars) (rest : list WStr.wchars)
    (retval : Z) (s : state U) :
  exists evs,
    trace (snd (enum_loop U os cb dirname entw rest retval s))
    = trace s ++ evs /\
    forallb (fun e => negb (is_quiet e)) evs = true.
Proof.
  apply (enum_loop_ind U os cb dirname
           (fun _ _ _ s out =>
              exists evs,
                trace (snd out) = trace s ++ evs /\
                forallb (fun e => negb (is_quiet e)) evs = true)).
  - intros e rs rv s0 r s1 Hbody _.
    rewrite enum_body_eq in Hbody.
    destruct (names_dot e);
      [| destruct (wide_to_utf8 os (WStr.wcs e)) as [name |]];
      inversion Hbody; subst; simpl.
    + exists []. rewrite app_nil_r. auto.
    + eexists [_]. split; reflexivity.
    + exists []. rewrite app_nil_r. auto.
  - intros e rv s0 s1 Hbody.
    rewrite enum_body_eq in Hbody.
    destruct (names_dot e);
      [| destruct (wide_to_utf8 os (WStr.wcs e)) as [name |]];
      inversion Hbody; subst; simpl.
    + eexists [_]. split; reflexivity.
    + eexists [_; _]. rewrite <- app_assoc. split; reflexivity.
  - intros e e' rs' rv s0 s1 out Hbody (evs & Htr & Hq).
    simpl in Htr. rewrite enum_body_eq in Hbody.
    destruct (names_dot e);
      [| destruct (wide_to_utf8 os (WStr.wcs e)) as [name |]];
      inversion Hbody; subst; simpl in Htr.
    + exists (EvFindNext (Some e') :: evs).
      rewrite Htr, <- app_assoc. split; [reflexivity | exact Hq].
    + eexists (_ :: EvFindNext (Some e') :: evs).
      rewrite Htr, <- !app_assoc. split; [reflexivity | exact Hq].
Qed.

(** X8: when the search opens, it is opened once, on the converted
    pattern "path\*" in full, and closed once, as the last thing the call
    does; in between there are only callback invocations and next-entry
    calls.  This holds whether the enumeration runs dry, is stopped by the
    callback or is cut short by a name that does not convert. *)
Theorem SDL_SYS_FSenumerate_search_bracket
    (fullpath : string) (s : state U)
    (wpat entw : WStr.wchars) (rest : list WStr.wchars) :
  fullpath <> EmptyString ->
  malloc_ok os (SDL_strlen fullpath + 3) = true ->
  utf8_to_wide os (fullpath ++ "\*") = Some wpat ->
  find_first os wpat = Some (entw, rest) ->
  exists evs,
    trace (snd (SDL_SYS_FSenumerate U os cb fullpath dirname s))
    = trace s ++ EvFindFirst wpat (Some entw) :: evs ++ [EvFindClose] /\
    forallb (fun e => negb (is_quiet e)) evs = true.
Proof.
  intros Hne Hmalloc Hconv Hfind.
  destruct (enumerate_dir U os cb dirname fullpath s Hne)
    as [(_ & [H | [H | (w & Hw & H)]] & _)
       | (wpat' & entw' & rest' & held & _ & Hconv' & Hfind' & _ & Hout)];
    try congruence.
  assert (wpat' = wpat) by congruence. subst wpat'.
  assert (E : (entw', rest') = (entw, rest)) by congruence.
  inversion E; subst entw' rest'. clear E.
  cbv zeta in Hout. rewrite Hout. clear Hout.
  set (s0 := mkState U _ _ _ _).
  destruct (enum_loop_events entw rest 1 s0) as (evs & Htr & Hq).
  destruct (enum_loop U os cb dirname entw rest 1 s0) as [r s'].
  unfold FindClose, bind, emit, release. simpl in Htr |- *.
  exists evs. split; [| exact Hq].
  rewrite Htr. unfold s0. simpl. rewrite <- !app_assoc. reflexivity.
Qed.

(** X9: what fails before the loop ends the call with [-1], the callback
    never invoked, the user data untouched and nothing held.  A pattern
    buffer that cannot be allocated or a pattern that does not convert
    leaves no trace at all; a search that cannot be opened leaves the
    attempt and the error report, and no [FindClose]. *)
Theorem SDL_SYS_FSenumerate_early_failure (fullpath : string) (s : state U) :
  fullpath <> EmptyString ->
  well_formed s ->
  let out := SDL_SYS_FSenumerate U os cb fullpath dirname s in
  (malloc_ok os (SDL_strlen fullpath + 3) = false ->
   out = (-1, s)) /\
  (malloc_ok os (SDL_strlen fullpath + 3) = true ->
   utf8_to_wide os (fullpath ++ "\*") = None ->
   fst out = -1 /\ trace (snd out) = trace s /\
   userdata (snd out) = userdata s /\ live (snd out) = live s) /\
  (forall wpat,
     malloc_ok os (SDL_strlen fullpath + 3) = true ->
     utf8_to_wide os (fullpath ++ "\*") = Some wpat ->
     find_first os wpat = None ->
     fst out = -1 /\
     trace (snd out) =
       trace s ++ [EvFindFirst wpat None;
                   EvSetError "Failed to enumerate directory"] /\
     userdata (snd out) = userdata s /\ live (snd out) = live s).
Proof.
  intros Hne Hwf. destruct fullpath as [| c path]; [contradiction |].
  cbv zeta. unfold SDL_SYS_FSenumerate, SDL_malloc.
  rewrite snprintf_pattern.
  split; [| split].
  - intros Hm. rewrite Hm. reflexivity.
  - intros Hm Hc. rewrite Hm.
    unfold WIN_UTF8ToString. rewrite Hc.
    unfold SDL_free. unfold bind, ret, acquire, release.
    cbn [fst snd live trace next_id userdata].
    repeat split.
    apply (release_acquired _ (next_id s)); auto.
  - intros wpat Hm Hc Hf. rewrite Hm.
    unfold WIN_UTF8ToString, FindFirstFileExW. rewrite Hc.
    unfold WIN_SetError, SDL_free. unfold bind, ret, acquire, emit, release.
    cbn [fst snd live trace next_id userdata]. rewrite Hf.
    cbn [fst snd live trace next_id userdata].
    repeat split.
    + rewrite <- app_assoc. reflexivity.
    + rewrite (release_first (live s) (next_id s)) by (simpl; auto).
      apply (release_acquired _ (next_id s)); simpl; auto.
Qed.

(** The [do] loop entered with [retval = 1]: a fetched entry that is not
    "." or ".." and whose name does not convert makes the result [-1]. *)
Lemma enum_loop_unconvertible (entw : WStr.wchars) (rest : list WStr.wchars)
    (s : state U) :
  exists evs,
    trace (snd (enum_loop U os cb dirname entw rest 1 s)) = trace s ++ evs /\
    (Exists (fun fn => names_dot fn = false /\
                       wide_to_utf8 os (WStr.wcs fn) = None)
            (entw :: found evs) ->
     fst (enum_loop U os cb dirname entw rest 1 s) = -1).
Proof.
  refine (enum_loop_ind U os cb dirname
            (fun entw _ retval s out =>
               retval = 1 ->
               exists evs,
                 trace (snd out) = trace s ++ evs /\
                 (Exists (fun fn => names_dot fn = false /\
                                    wide_to_utf8 os (WStr.wcs fn) = None)
                         (entw :: found evs) ->
                  fst out = -1))
            _ _ _ entw rest 1 s eq_refl).
  - intros e rs rv s0 r s1 Hbody Hr ->.
    rewrite enum_body_eq in Hbody.
    destruct (names_dot e) eqn:Hdot;
      [| destruct (wide_to_utf8 os (WStr.wcs e)) as [name |] eqn:Hconv];
      inversion Hbody; subst; simpl.
    + contradiction.
    + eexists [_]. split; [reflexivity |]. simpl.
      intros Hex. inversion Hex as [? ? [_ Hn] | ? ? Hn]; subst.
      * congruence.
      * inversion Hn.
    + exists []. rewrite app_nil_r. auto.
  - intros e rv s0 s1 Hbody ->.
    rewrite enum_body_eq in Hbody.
    destruct (names_dot e) eqn:Hdot;
      [| destruct (wide_to_utf8 os (WStr.wcs e)) as [name |] eqn:Hconv];
      inversion Hbody; subst; simpl.
    + eexists [_]. split; [reflexivity |]. simpl.
      intros Hex. inversion Hex as [? ? [Hd _] | ? ? Hn]; subst.
      * congruence.
      * inversion Hn.
    + eexists [_; _]. rewrite <- app_assoc. split; [reflexivity |]. simpl.
      intros Hex. inversion Hex as [? ? [_ Hn] | ? ? Hn]; subst.
      * congruence.
      * inversion Hn.
  - intros e e' rs' rv s0 s1 out Hbody IH ->.
    destruct (IH eq_refl) as (evs & Htr & Himp). simpl in Htr.
    rewrite enum_body_eq in Hbody.
    destruct (names_dot e) eqn:Hdot;
      [| destruct (wide_to_utf8 os (WStr.wcs e)) as [name |] eqn:Hconv];
      inversion Hbody; subst; simpl in Htr.
    + exists (EvFindNext (Some e') :: evs).
      rewrite Htr, <- app_assoc. split; [reflexivity |]. simpl.
      intros Hex. inversion Hex as [? ? [Hd _] | ? ? Hn]; subst.
      * congruence.
      * exact (Himp Hn).
    + eexists (_ :: EvFindNext (Some e') :: evs).
      rewrite Htr, <- !app_assoc. split; [reflexivity |]. simpl.
      intros Hex. inversion Hex as [? ? [_ Hn] | ? ? Hn]; subst.
      * congruence.
      * exact (Himp Hn).
Qed.

(** X10: when the search hands out an entry, other than "." and "..",
    whose name does not convert to UTF-8, the call returns [-1]; the
    search is closed all the same. *)
Theorem SDL_SYS_FSenumerate_unconvertible_entry
    (fullpath : string) (u : U) (fn : WStr.wchars) :
  fullpath <> EmptyString ->
  let out := SDL_SYS_FSenumerate U os cb fullpath dirname (init u) in
  In fn (found (trace (snd out))) ->
  names_dot fn = false ->
  wide_to_utf8 os (WStr.wcs fn) = None ->
  fst out = -1 /\
  exists tr, trace (snd out) = tr ++ [EvFindClose].
Proof.
  intros Hne out Hin Hdot Hconv. subst out.
  destruct (enumerate_dir U os cb dirname fullpath (init u) Hne)
    as [(_ & _ & _ & evs & Hevs & _ & Hfound & _)
       | (wpat & entw & rest & held & _ & _ & _ & _ & Hout)].
  - exfalso. rewrite Hevs in Hin. simpl in Hin. rewrite Hfound in Hin.
    exact Hin.
  - cbv zeta in Hout. rewrite Hout in Hin |- *. clear Hout.
    set (s0 := mkState U _ _ _ _) in *.
    destruct (enum_loop_unconvertible entw rest s0) as (evs & Htr & Himp).
    destruct (enum_loop U os cb dirname entw rest 1 s0) as [r s'].
    unfold FindClose, bind, emit, release in Hin |- *.
    simpl in Htr, Himp, Hin |- *.
    split; [| exists (trace s'); reflexivity].
    apply Himp. apply Exists_exists. exists fn. split; [| auto].
    rewrite Htr in Hin. unfold s0 in Hin. simpl in Hin.
    rewrite found_app in Hin. simpl in Hin. rewrite app_nil_r in Hin.
    exact Hin.
Qed.

(** X11: only the bits of 'A' to 'Z' of the drive bitmask matter: two
    hosts whose bitmasks agree on bits 0 to 25 give the same enumeration
    of the empty path. *)
Theorem SDL_SYS_FSenumerate_root_ignores_high_bits
    (os' : Win32) (s : state U) :
  (forall k, 0 <= k < 26 ->
             Z.testbit (logical_drives os) k
             = Z.testbit (logical_drives os') k) ->
  SDL_SYS_FSenumerate U os cb EmptyString dirname s
  = SDL_SYS_FSenumerate U os' cb EmptyString dirname s.
Proof.
  intros Hbits. rewrite !enumerate_root.
  unfold drive_names, present_names.
  rewrite (filter_ext_in
             (fun i => Z.testbit (logical_drives os) (i - char_A))
             (fun i => Z.testbit (logical_drives os') (i - char_A))).
  - reflexivity.
  - intros i Hi. apply Hbits. unfold letters in Hi.
    apply in_map_iff in Hi. destruct Hi as (k & <- & Hk).
    apply in_seq in Hk. unfold char_A. lia.
Qed.

(** X12: the test of the loop body skips an entry exactly when its
    NUL-terminated name is "." or "..": any other name that begins with a
    dot is delivered like every other entry. *)
Theorem is_dot_or_dotdot_exact (fn : WStr.wchars) :
  is_dot_or_dotdot fn = true <->
  WStr.wcs fn = [WStr.dot] \/ WStr.wcs fn = [WStr.dot; WStr.dot].
Proof.
  rewrite is_dot_or_dotdot_names. apply names_dot_iff.
Qed.

End EnumerateMore.

Lemma SDL_SYS_FSenumerate_search_bracket_witness :
  exists evs,
    trace (snd (SDL_SYS_FSenumerate nat Samples.sample_os
                  Samples.stop_at_third "C:\dir" "dir" (init 0%nat)))
    = EvFindFirst (Samples.wide "C:\dir\*") (Some (Samples.wide "."))
      :: evs ++ [EvFindClose].
Proof.
  assert (Hne : "C:\dir"%string <> EmptyString) by discriminate.
  destruct (SDL_SYS_FSenumerate_search_bracket nat Samples.sample_os
              Samples.stop_at_third "dir" "C:\dir" (init 0%nat)
              (Samples.wide "C:\dir\*") (Samples.wide ".")
              [Samples.wide ".."; Samples.wide "a"; Samples.wide "b";
               Samples.wide "c"; Samples.wide "d"; Samples.wide "e"]
              Hne eq_refl eq_refl eq_refl) as (evs & Htr & _).
  exists evs. exact Htr.
Defined.

Lemma SDL_SYS_FSenumerate_early_failure_witness :
  fst (SDL_SYS_FSenumerate nat Samples.sample_os Samples.count_cb
         "C:\nodir" "nodir" (init 0%nat)) = -1.
Proof.
  assert (Hne : "C:\nodir"%string <> EmptyString) by discriminate.
  assert (Hwf : well_formed (init 0%nat)) by constructor.
  destruct (SDL_SYS_FSenumerate_early_failure nat Samples.sample_os
              Samples.count_cb "nodir" "C:\nodir" (init 0%nat) Hne Hwf)
    as (_ & _ & H).
  destruct (H (Samples.wide "C:\nodir\*") eq_refl eq_refl eq_refl)
    as [Hret _].
  exact Hret.
Defined.

Lemma SDL_SYS_FSenumerate_unconvertible_entry_witness :
  fst (SDL_SYS_FSenumerate nat MoreSamples.picky_os Samples.count_cb
         "C:\dir" "dir" (init 0%nat)) = -1.
Proof.
  assert (Hne : "C:\dir"%string <> EmptyString) by discriminate.
  apply (SDL_SYS_FSenumerate_unconvertible_entry nat MoreSamples.picky_os
           Samples.count_cb "dir" "C:\dir" 0%nat (Samples.wide "c") Hne).
  - vm_compute. do 4 right. left. reflexivity.
  - reflexivity.
  - reflexivity.
Defined.

Lemma SDL_SYS_FSenumerate_root_ignores_high_bits_witness :
  SDL_SYS_FSenumerate nat Samples.sample_os Samples.count_cb
    EmptyString "root" (init 0%nat)
  = SDL_SYS_FSenumerate nat MoreSamples.noisy_os Samples.count_cb
      EmptyString "root" (init 0%nat).
Proof.
  apply (SDL_SYS_FSenumerate_root_ignores_high_bits nat Samples.sample_os
           Samples.count_cb "root" MoreSamples.noisy_os (init 0%nat)).
  intros k Hk.
  assert (Hall : forallb
                   (fun i => Bool.eqb
                               (Z.testbit (logical_drives Samples.sample_os) i)
                               (Z.testbit
                                  (logical_drives MoreSamples.noisy_os) i))
                   (map Z.of_nat (seq 0 26)) = true) by reflexivity.
  rewrite forallb_forall in Hall.
  apply Bool.eqb_prop. apply Hall.
  apply in_map_iff. exists (Z.to_nat k). split; [lia |].
  apply in_seq. lia.
Defined.

(** ** Enumeration: complete runs and results *)

Section CompleteRuns.

Variable U : Type.
Variable os : Win32.
Variable cb : U -> string -> string -> Z * U.
Variable dirname : string.

Import ResourceFacts TraceFacts NameFacts.

Lemma calls_call_events (cs : list (string * Z)) :
  calls (map (call_event dirname) cs)
  = map (fun c => (dirname, fst c, snd c)) cs.
Proof. induction cs as [| c cs IH]; simpl; [| rewrite IH]; reflexivity. Qed.

(** One pass of the body when the callback answers 1 and the name
    converts: the pass ends with 1. *)
Lemma enum_body_complete (entw : WStr.wchars) (s : state U) :
  (forall u n, fst (cb u dirname n) = 1) ->
  (names_dot entw = false -> wide_to_utf8 os (WStr.wcs entw) <> None) ->
  exists s1 evs,
    enum_body U os cb dirname entw 1 s = (1, s1) /\
    userdata s1
    = fold_left (fun u n => snd (cb u dirname n))
                (map snd (deliverable os dirname entw)) (userdata s) /\
    trace s1 = trace s ++ evs /\ found evs = [].
Proof.
  intros Hone Hconv. rewrite enum_body_eq. unfold deliverable.
  destruct (names_dot entw).
  - exists s, []. rewrite app_nil_r. auto.
  - destruct (wide_to_utf8 os (WStr.wcs entw)) as [name |];
      [| exfalso; exact (Hconv eq_refl eq_refl)].
    cbv zeta. rewrite (Hone (userdata s) name).
    eexists _, [_]. split; [reflexivity |]. simpl. auto.
Qed.

(** The [do] loop with a callback that always answers 1 and names that
    all convert: every entry is fetched, and the user data is the fold of
    the callback over the delivered names. *)
Lemma enum_loop_complete (entw : WStr.wchars) (rest : list WStr.wchars)
    (s : state U) :
  (forall u n, fst (cb u dirname n) = 1) ->
  Forall (fun fn => names_dot fn = false ->
                    wide_to_utf8 os (WStr.wcs fn) <> None) (entw :: rest) ->
  let out := enum_loop U os cb dirname entw rest 1 s in
  fst out = 1 /\
  userdata (snd out)
  = fold_left (fun u n => snd (cb u dirname n))
              (map snd (flat_map (deliverable os dirname) (entw :: rest)))
              (userdata s) /\
  exists evs, trace (snd out) = trace s ++ evs /\ found evs = rest.
Proof.
  intros Hone. revert entw s.
  induction rest as [| entw' rest' IH]; intros entw s Hall; cbv zeta;
    destruct (enum_body_complete entw s Hone (Forall_inv Hall))
      as (s1 & evs & Hbody & Hu & Htr & Hf);
    rewrite enum_loop_unfold, Hbody; simpl Z.eqb; cbv iota.
  - simpl. rewrite app_nil_r. split; [reflexivity |].
    split; [exact Hu |].
    exists (evs ++ [EvFindNext None]).
    rewrite Htr, <- app_assoc, found_app, Hf. auto.
  - destruct (IH entw' (with_event s1 (EvFindNext (Some entw')))
                (Forall_inv_tail Hall)) as (Hret & Hu' & evs' & Htr' & Hf').
    split; [exact Hret |]. split.
    + rewrite Hu'. simpl userdata. rewrite Hu.
      change (flat_map (deliverable os dirname) (entw :: entw' :: rest'))
        with (deliverable os dirname entw
              ++ flat_map (deliverable os dirname) (entw' :: rest')).
      rewrite map_app, fold_left_app. reflexivity.
    + exists (evs ++ EvFindNext (Some entw') :: evs').
      rewrite Htr'. simpl trace. rewrite Htr, <- !app_assoc.
      split; [reflexivity |].
      rewrite found_app, Hf. simpl. rewrite Hf'. reflexivity.
Qed.

(** X13: a complete run over a directory.  When nothing fails and the
    callback always answers 1, the call returns 1, every entry of the
    search is fetched, and the user data at the end is the fold of the
    callback, in search order, over the UTF-8 names of the entries other
    than "." and "..". *)
Theorem SDL_SYS_FSenumerate_complete
    (fullpath : string) (s : state U)
    (wpat entw : WStr.wchars) (rest : list WStr.wchars) :
  fullpath <> EmptyString ->
  malloc_ok os (SDL_strlen fullpath + 3) = true ->
  utf8_to_wide os (fullpath ++ "\*") = Some wpat ->
  find_first os wpat = Some (entw, rest) ->
  Forall (fun fn => names_dot fn = false ->
                    wide_to_utf8 os (WStr.wcs fn) <> None) (entw :: rest) ->
  (forall u n, fst (cb u dirname n) = 1) ->
  let out := SDL_SYS_FSenumerate U os cb fullpath dirname s in
  fst out = 1 /\
  found (trace (snd out)) = found (trace s) ++ entw :: rest /\
  userdata (snd out)
  = fold_left (fun u n => snd (cb u dirname n))
              (map snd (flat_map (deliverable os dirname) (entw :: rest)))
              (userdata s).
Proof.
  intros Hne Hmalloc Hconv Hfind Hall Hone.
  destruct (enumerate_dir U os cb dirname fullpath s Hne)
    as [(_ & [H | [H | (w & Hw & H)]] & _)
       | (wpat' & entw' & rest' & held & _ & Hconv' & Hfind' & _ & Hout)];
    try congruence.
  assert (wpat' = wpat) by congruence. subst wpat'.
  assert (E : (entw', rest') = (entw, rest)) by congruence.
  inversion E; subst entw' rest'. clear E.
  cbv zeta in Hout |- *. rewrite Hout. clear Hout.
  set (s0 := mkState U _ _ _ _).
  destruct (enum_loop_complete entw rest s0 Hone Hall)
    as (Hret & Hu & evs & Htr & Hf).
  destruct (enum_loop U os cb dirname entw rest 1 s0) as [r s'].
  unfold FindClose, bind, emit, release. simpl in Hret, Hu, Htr |- *.
  split; [exact Hret |]. split; [| exact Hu].
  rewrite Htr. unfold s0. simpl.
  rewrite !found_app, Hf. simpl.
  rewrite app_nil_r, <- app_assoc. reflexivity.
Qed.

(** The iteration protocol with a callback that always answers 1. *)
Lemma deliver_all_complete (names : list string) (s : state U) :
  (forall u n, fst (cb u dirname n) = 1) ->
  let out := deliver_all U cb dirname names s in
  fst out = 1 /\
  userdata (snd out)
  = fold_left (fun u n => snd (cb u dirname n)) names (userdata s) /\
  delivered (trace (snd out))
  = delivered (trace s) ++ map (fun n => (dirname, n)) names.
Proof.
  intros Hone. revert s. induction names as [| name names IH]; intros s.
  - simpl. rewrite app_nil_r. auto.
  - cbv zeta. simpl deliver_all. unfold bind, call_cb.
    destruct (cb (userdata s) dirname name) as [r u] eqn:Hcb.
    assert (Hr : r = 1)
      by (pose proof (Hone (userdata s) name) as H1; rewrite Hcb in H1;
          exact H1).
    subst r. change (1 =? 1) with true. cbv iota.
    specialize (IH (mkState U u (next_id s) (live s)
                      (trace s ++ [EvCallback dirname name 1]))).
    cbv zeta in IH. destruct IH as (Hret & Hu & Hd).
    split; [exact Hret |]. split.
    + rewrite Hu. simpl. rewrite Hcb. reflexivity.
    + rewrite Hd. simpl. rewrite delivered_app, <- app_assoc. reflexivity.
Qed.

(** X14: a complete run over the root.  When the callback always answers
    1 the call on the empty path returns 1, has delivered the name of
    every drive present, in ascending order, and leaves as user data the
    fold of the callback over those names. *)
Theorem SDL_SYS_FSenumerate_root_complete (s : state U) :
  (forall u n, fst (cb u dirname n) = 1) ->
  let out := SDL_SYS_FSenumerate U os cb EmptyString dirname s in
  fst out = 1 /\
  delivered (trace (snd out))
  = delivered (trace s)
    ++ map (fun n => (dirname, n)) (drive_names (logical_drives os)) /\
  userdata (snd out)
  = fold_left (fun u n => snd (cb u dirname n))
              (drive_names (logical_drives os)) (userdata s).
Proof.
  intros Hone. cbv zeta. rewrite enumerate_root.
  destruct (deliver_all_complete (drive_names (logical_drives os))
              (with_event s EvGetLogicalDrives) Hone) as (Hret & Hu & Hd).
  split; [exact Hret |]. split; [| exact Hu].
  rewrite Hd. simpl. rewrite delivered_app. simpl.
  rewrite app_nil_r. reflexivity.
Qed.

(** X15: where the result comes from.  The call returns 1, or [-1], or
    the answer of the last callback invocation it made. *)
Theorem SDL_SYS_FSenumerate_result (fullpath : string) (u : U) :
  let out := SDL_SYS_FSenumerate U os cb fullpath dirname (init u) in
  fst out = 1 \/ fst out = -1 \/
  exists pre n, calls (trace (snd out)) = pre ++ [(dirname, n, fst out)].
Proof.
  cbv zeta.
  destruct (string_dec fullpath EmptyString) as [-> | Hne].
  - rewrite enumerate_root.
    pose proof (deliver_all_run U cb dirname
                  (drive_names (logical_drives os))
                  (with_event (init u) EvGetLogicalDrives)) as Hrun.
    cbv zeta in Hrun.
    destruct (deliver_all U cb dirname (drive_names (logical_drives os))
                (with_event (init u) EvGetLogicalDrives)) as [r s'].
    destruct Hrun as (cs & Hcs & _ & _ & Hend).
    simpl in Hcs, Hend |- *.
    destruct Hend as [(E & _) | (_ & cs0 & n & -> & _)]; [left; exact E |].
    right. right. rewrite Hcs. simpl calls.
    rewrite calls_call_events, map_app. simpl.
    eexists _, n. reflexivity.
  - destruct (enumerate_dir U os cb dirname fullpath (init u) Hne)
      as [(Hret & _) | (wpat & entw & rest & held & _ & _ & _ & _ & Hout)].
    + right. left. exact Hret.
    + cbv zeta in Hout. rewrite Hout. clear Hout.
      set (s0 := mkState U _ _ _ _).
      assert (Hs0 : no_stop (trace s0))
        by (unfold s0; simpl; constructor; [reflexivity | constructor]).
      pose proof (enum_loop_outcome U os cb dirname entw rest s0 Hs0)
        as Hrun.
      cbv zeta in Hrun.
      destruct (enum_loop U os cb dirname entw rest 1 s0) as [r s'].
      unfold FindClose, bind, emit, release. simpl in Hrun |- *.
      destruct Hrun as [(E & _) | [(E & _) | (_ & tr0 & n & Htr0 & _)]].
      * left. exact E.
      * right. left. exact E.
      * right. right. rewrite Htr0, !calls_app. simpl.
        rewrite app_nil_r. exists (calls tr0), n. reflexivity.
Qed.

(** Dropping the drives that are absent keeps the names distinct. *)
Lemma present_names_NoDup (drives : Z) (candidates : list Z) :
  NoDup (map drive_name candidates) ->
  NoDup (present_names drives candidates).
Proof.
  unfold present_names.
  induction candidates as [| i candidates IH]; simpl; intros Hnd;
    [constructor |].
  pose proof (NoDup_cons_iff (drive_name i) (map drive_name candidates))
    as Hcons.
  apply Hcons in Hnd. destruct Hnd as [Hfresh Hnd].
  destruct (Z.testbit drives (i - char_A)); simpl; [| exact (IH Hnd)].
  constructor; [| exact (IH Hnd)].
  intros Hin. apply Hfresh.
  apply in_map_iff in Hin. destruct Hin as (j & Hj & Hin).
  apply filter_In in Hin. apply in_map_iff. exists j. tauto.
Qed.

Lemma drive_names_NoDup (drives : Z) : NoDup (drive_names drives).
Proof.
  unfold drive_names. apply present_names_NoDup.
  unfold letters. simpl.
  repeat (constructor; [simpl; intuition discriminate |]).
  constructor.
Qed.

(** X16: the enumeration of the empty path hands no drive name to the
    callback twice. *)
Theorem SDL_SYS_FSenumerate_root_no_repeat (u : U) :
  NoDup (map snd
           (delivered
              (trace (snd (SDL_SYS_FSenumerate U os cb EmptyString dirname
                             (init u)))))).
Proof.
  rewrite enumerate_root.
  pose proof (deliver_all_run U cb dirname
                (drive_names (logical_drives os))
                (with_event (init u) EvGetLogicalDrives)) as Hrun.
  cbv zeta in Hrun.
  destruct (deliver_all U cb dirname (drive_names (logical_drives os))
              (with_event (init u) EvGetLogicalDrives)) as [r s'].
  destruct Hrun as (cs & Hcs & _ & Hnames & _).
  simpl in Hcs |- *. rewrite Hcs. unfold delivered. simpl calls.
  rewrite calls_call_events, !map_map. simpl.
  change (map (fun x : string * Z => fst x) cs) with (map fst cs).
  rewrite Hnames.
  pose proof (drive_names_NoDup (logical_drives os)) as Hnd.
  rewrite <- (firstn_skipn (List.length cs)
                (drive_names (logical_drives os))) in Hnd.
  exact (NoDup_app_remove_r _ _ Hnd).
Qed.

End CompleteRuns.

Lemma SDL_SYS_FSenumerate_complete_witness :
  userdata (snd (SDL_SYS_FSenumerate (list string) Samples.sample_os
                   MoreSamples.collect_cb "C:\dir" "dir" (init [])))
  = ["a"; "b"; "c"; "d"; "e"]%string.
Proof.
  assert (Hne : "C:\dir"%string <> EmptyString) by discriminate.
  destruct (SDL_SYS_FSenumerate_complete (list string) Samples.sample_os
              MoreSamples.collect_cb "dir" "C:\dir" (init [])
              (Samples.wide "C:\dir\*") (Samples.wide ".")
              [Samples.wide ".."; Samples.wide "a"; Samples.wide "b";
               Samples.wide "c"; Samples.wide "d"; Samples.wide "e"]
              Hne eq_refl eq_refl eq_refl) as (_ & _ & H).
  - repeat constructor; discriminate.
  - intros u n. reflexivity.
  - rewrite H. reflexivity.
Defined.

Lemma SDL_SYS_FSenumerate_root_complete_witness :
  userdata (snd (SDL_SYS_FSenumerate (list string) Samples.sample_os
                   MoreSamples.collect_cb EmptyString "root" (init [])))
  = ["A:"; "C:"]%string.
Proof.
  destruct (SDL_SYS_FSenumerate_root_complete (list string)
              Samples.sample_os MoreSamples.collect_cb "root" (init []))
    as (_ & _ & H).
  - intros u n. reflexivity.
  - rewrite H. reflexivity.
Defined.

Lemma SDL_SYS_FSenumerate_releases_witness :
  live (snd (SDL_SYS_FSenumerate nat Samples.sample_os Samples.stop_at_third
               "C:\dir" "dir" (init 0%nat))) = [].
Proof.
  apply (SDL_SYS_FSenumerate_releases nat Samples.sample_os
           Samples.stop_at_third "C:\dir" "dir" (init 0%nat)).
  constructor.
Defined.
